(** * DELUXY - BGG proxy: the retry loop and the XML normaliser of [main.py]

    A shallow embedding of [get_bgg_games] (src/main.py, lines 38-173):
    the bounded retry loop around the upstream call (lines 61-116), the
    XML parsing step (lines 118-127) and the shape-tolerant extraction of
    [{objectid, name}] records (lines 129-173).

    The HTTP client and [xmltodict.parse] are third-party code: the upstream
    is an oracle giving the outcome of the n-th call, the parser a function
    from text to a tree or an error message.  Both are section variables. *)

From Stdlib Require Import String Ascii ZArith List Bool Lia DecimalString.
From Stdlib Require Import Permutation.
Import ListNotations.

Set Warnings "-register-all".

Open Scope string_scope.
Open Scope Z_scope.

(* ================================================================== *)
(** ** Python values and the builtins [main.py] uses *)
(* ================================================================== *)

Module Py.

(** The trees [xmltodict.parse] builds: [None] for an empty element, a
    string for text and attributes, a dict for an element with attributes
    or children, a list for a repeated child.  Integers are included
    because the source compares [@sortindex] with the integer [1] too.
    Python dicts keep insertion order (document order here), so a dict is
    an association list; a lookup takes the first entry with the key. *)
Inductive value : Type :=
| VNone
| VStr (s : string)
| VInt (z : Z)
| VDict (d : list (string * value))
| VList (l : list value).

Definition dict : Type := list (string * value).

(** [k in d] / [d[k]] *)
Fixpoint lookup (k : string) (d : dict) : option value :=
  match d with
  | [] => None
  | (k', v) :: d' => if String.eqb k k' then Some v else lookup k d'
  end.

(** [d.get(k, default)] on a dict *)
Definition dict_get (d : dict) (k : string) (default : value) : value :=
  match lookup k d with
  | Some v => v
  | None => default
  end.

(** [isinstance(v, dict)] and [isinstance(v, list)] *)
Definition isinstance_dict (v : value) : bool :=
  match v with VDict _ => true | _ => false end.

Definition isinstance_list (v : value) : bool :=
  match v with VList _ => true | _ => false end.

(** [v is None] *)
Definition is_None (v : value) : bool :=
  match v with VNone => true | _ => false end.

(** Truth value of [v] in a condition: [None], the empty string, [0] and
    the empty containers are false. *)
Definition truthy (v : value) : bool :=
  match v with
  | VNone => false
  | VStr s => negb (String.eqb s "")
  | VInt z => negb (z =? 0)
  | VDict d => match d with [] => false | _ => true end
  | VList l => match l with [] => false | _ => true end
  end.

(** [v == "..."] and [v == n] for a string and an integer literal *)
Definition eq_str (v : value) (s : string) : bool :=
  match v with VStr t => String.eqb t s | _ => false end.

Definition eq_int (v : value) (n : Z) : bool :=
  match v with VInt z => z =? n | _ => false end.

(** [str(n)] of an integer: decimal digits, a leading [-] when negative *)
Definition str_of_int (z : Z) : string :=
  NilZero.string_of_int (Z.to_int z).

(** [sep.join(parts)] *)
Fixpoint join (sep : string) (parts : list string) : string :=
  match parts with
  | [] => ""
  | [p] => p
  | p :: rest => p ++ sep ++ join sep rest
  end.

(** [repr(v)].  A string is shown between single quotes without escapes,
    which is Python's rendering of a string holding no quote, backslash
    or control character.  Only [str] of a container reaches this case,
    and [xmltodict] never nests a list directly inside a list. *)
Fixpoint repr (v : value) : string :=
  match v with
  | VNone => "None"
  | VStr s => "'" ++ s ++ "'"
  | VInt z => str_of_int z
  | VDict d =>
      "{" ++ join ", " (map (fun kv => let '(k, x) := kv in
                                       "'" ++ k ++ "': " ++ repr x) d) ++ "}"
  | VList l => "[" ++ join ", " (map repr l) ++ "]"
  end.

(** [str(v)] *)
Definition str (v : value) : string :=
  match v with
  | VStr s => s
  | _ => repr v
  end.

(** [s[:n]]: the first [n] characters of [s], all of [s] when it is shorter *)
Fixpoint slice_to (n : nat) (s : string) : string :=
  match n, s with
  | O, _ => ""
  | S _, EmptyString => ""
  | S n', String c s' => String c (slice_to n' s')
  end.

(** The characters of a string, each a one-character string: what
    iterating over a [str] yields. *)
Fixpoint chars (s : string) : list value :=
  match s with
  | EmptyString => []
  | String c s' => VStr (String c EmptyString) :: chars s'
  end.

(** Exceptions that leave [get_bgg_games]: FastAPI's [HTTPException], the
    two errors Python raises on a value of the wrong shape, and an
    exception of the HTTP client that no [except] clause names. *)
Inductive exn : Type :=
| HTTPException (status_code : Z) (detail : string)
| AttributeError
| TypeError
| Propagated (e : string).

(** A computation that returns or raises. *)
Inductive result (A : Type) : Type :=
| Return (a : A)
| Raise (e : exn).

Arguments Return {A} a.
Arguments Raise {A} e.

Definition bind {A B : Type} (m : result A) (k : A -> result B) : result B :=
  match m with
  | Return a => k a
  | Raise e => Raise e
  end.

(** [v.get(k, default)]: only a dict has the method. *)
Definition get (v : value) (k : string) (default : value) : result value :=
  match v with
  | VDict d => Return (dict_get d k default)
  | _ => Raise AttributeError
  end.

(** [for x in v]: the values the loop visits.  A list yields its elements,
    a string its characters, a dict its keys; [None] and an integer are
    not iterable. *)
Definition iter (v : value) : result (list value) :=
  match v with
  | VList l => Return l
  | VStr s => Return (chars s)
  | VDict d => Return (map (fun kv => VStr (fst kv)) d)
  | VNone | VInt _ => Raise TypeError
  end.

End Py.

Import Py.

Notation "x <- m ;; k" := (bind m (fun x => k))
  (at level 61, m at next level, right associativity).

(* ================================================================== *)
(** ** The fetcher: lines 52-116 *)
(* ================================================================== *)

Module Fetcher.

(** [resp.status_code] and [resp.text] *)
Record Response : Type := { status_code : Z; text : string }.

(** What one [await client.get(url, headers=headers)] does: it returns a
    response, raises [httpx.TimeoutException], raises another
    [httpx.HTTPError], or raises an exception neither handler names. *)
Inductive outcome : Type :=
| Responded (resp : Response)
| TimeoutException (e : string)
| HTTPError (e : string)
| OtherException (e : string).

(** What the request does to the outside world, in order. *)
Inductive event : Type :=
| Get (url : string) (authorization : string)
| Sleep (seconds : Z).

(** How one pass through the body of the [for] loop ends. *)
Inductive control : Type :=
| Continue
| Break (resp : Response)
| Raised (e : exn).

(** How the [for ... else] statement ends: by [break] (with the value of
    [resp]), by an exception, or by running out of attempts, which is the
    only way into the [else] clause. *)
Inductive loop_exit : Type :=
| Broke (resp : Response)
| Failed (e : exn)
| Exhausted.

Definition max_retries : Z := 5.
Definition retry_delay : Z := 5.

(** [range(n)] *)
Definition range (n : Z) : list Z := map Z.of_nat (seq 0 (Z.to_nat n)).

(** Lines 71-73, 82-84, 102-104 and 107-109: sleep and go round again
    while an attempt is left, else raise [e]. *)
Definition retry_or (attempt : Z) (e : exn) : list event * control :=
  if attempt <? max_retries - 1
  then ([Sleep retry_delay], Continue)
  else ([], Raised e).

(** Lines 66-110: the body of the loop after the call has ended with
    outcome [o]; the events are those the body adds after the call. *)
Definition body (attempt : Z) (o : outcome) : list event * control :=
  match o with
  | Responded resp =>
      if status_code resp =? 202 then
        retry_or attempt
          (HTTPException 202
             "BGG is processing the collection. Please try again in a few moments.")
      else if (status_code resp =? 500) || (status_code resp =? 503) then
        retry_or attempt
          (HTTPException 503 "BGG is very busy. Please try again later.")
      else if negb (status_code resp =? 200) then
        ([], Raised (HTTPException 502
                       ("BGG returned HTTP error " ++ str_of_int (status_code resp)
                        ++ ": " ++ slice_to 200 (text resp))))
      else ([], Break resp)
  | TimeoutException e =>
      retry_or attempt
        (HTTPException 504
           ("Timeout contacting BGG after " ++ str_of_int max_retries
            ++ " attempts: " ++ e))
  | HTTPError e =>
      retry_or attempt
        (HTTPException 502
           ("Error contacting BGG after " ++ str_of_int max_retries
            ++ " attempts: " ++ e))
  | OtherException e => ([], Raised (Propagated e))
  end.

Section Loop.

(** The configured token, and the outcome of the n-th call of the upstream
    made by this request (n counted from 0). *)
Variable BGG_TOKEN : string.
Variable upstream : nat -> outcome.

(** Line 52 and lines 54-56 *)
Definition url (username : string) : string :=
  "https://boardgamegeek.com/xmlapi2/collection?username=" ++ username
  ++ "&own=1&subtype=boardgame&excludesubtype=boardgameexpansion".

Definition authorization : string := "Bearer " ++ BGG_TOKEN.

(** Lines 65-116: [for attempt in attempts: ... else: ...], with [calls]
    upstream calls made before it starts. *)
Fixpoint retry_loop (username : string) (calls : nat) (attempts : list Z)
  : list event * loop_exit :=
  match attempts with
  | [] => ([], Exhausted)
  | attempt :: rest =>
      let call := Get (url username) authorization in
      let '(after, c) := body attempt (upstream calls) in
      match c with
      | Continue =>
          let '(later, x) := retry_loop username (S calls) rest in
          (call :: after ++ later, x)
      | Break resp => (call :: after, Broke resp)
      | Raised e => (call :: after, Failed e)
      end
  end.

(** Lines 64-116: the [async with] block. *)
Definition fetch (username : string) : list event * loop_exit :=
  retry_loop username 0 (range max_retries).

End Loop.

(** The number of upstream calls and of delays in a trace. *)
Definition is_get (e : event) : bool :=
  match e with Get _ _ => true | Sleep _ => false end.

Definition attempts_made (tr : list event) : nat :=
  length (filter is_get tr).

Definition delays (tr : list event) : list Z :=
  flat_map (fun e => match e with Sleep s => [s] | Get _ _ => [] end) tr.

(** The status of the response, when the call returned one. *)
Definition status_of (o : outcome) : option Z :=
  match o with
  | Responded resp => Some (status_code resp)
  | _ => None
  end.

(** The outcomes section 4.1 of the specification lists as retried:
    status 202, 500 or 503, a timeout, another transport error. *)
Definition retried (o : outcome) : bool :=
  match o with
  | Responded resp =>
      (status_code resp =? 202) || (status_code resp =? 500)
      || (status_code resp =? 503)
  | TimeoutException _ | HTTPError _ => true
  | OtherException _ => false
  end.

(** A status outside 200, 202, 500 and 503. *)
Definition unexpected (status : Z) : bool :=
  negb ((status =? 200) || (status =? 202) || (status =? 500)
        || (status =? 503)).

(** The trace of [k] attempts that were each followed by a delay. *)
Fixpoint retries (u a : string) (k : nat) : list event :=
  match k with
  | O => []
  | S k' => Get u a :: Sleep retry_delay :: retries u a k'
  end.

(** The failures the table of section 4.1 names, by status code. *)
Definition classified (e : exn) : bool :=
  match e with
  | HTTPException c _ => (c =? 202) || (c =? 503) || (c =? 504) || (c =? 502)
  | _ => false
  end.

(** Case analysis following the branches of [body]: the four status
    tests of a response in the order of lines 70-96, then the two
    handlers and the uncaught case. *)
Ltac body_cases o :=
  let rsp := fresh "rsp" in
  let msg := fresh "msg" in
  unfold body, retried, unexpected;
  destruct o as [rsp | msg | msg | msg];
  [ destruct (status_code rsp =? 202) eqn:E202;
    [ | destruct (status_code rsp =? 500) eqn:E500;
        [ | destruct (status_code rsp =? 503) eqn:E503;
            [ | destruct (status_code rsp =? 200) eqn:E200 ] ] ]
  | | | ]; cbn [orb negb andb].

End Fetcher.

(* ================================================================== *)
(** ** The normaliser: lines 129-173 *)
(* ================================================================== *)

Module Normalizer.

(** One element of ["items"] in the answer: both keys are always written. *)
Record ParsedGame : Type := { objectid : value; name : value }.

(** The two answers: [{"status": "processing", "message": m}] and
    [{"status": "ok", "count": c, "items": l}]. *)
Inductive CollectionResult : Type :=
| Processing (message : value)
| Ok (count : Z) (items : list ParsedGame).

(** [n.get("#text", n.get("@value", ""))], lines 152, 158 and 163 *)
Definition text_or_value (n : dict) : value :=
  dict_get n "#text" (dict_get n "@value" (VStr "")).

(** Line 151: [n.get("@sortindex") == "1" or n.get("@sortindex") == 1] *)
Definition sortindex_is_1 (n : dict) : bool :=
  eq_str (dict_get n "@sortindex" VNone) "1"
  || eq_int (dict_get n "@sortindex" VNone) 1.

(** Lines 149-153: the value of [name] after the loop over [name_data],
    [None] when the loop ends without a [break]. *)
Fixpoint first_sortindex_1 (name_data : list value) : value :=
  match name_data with
  | [] => VNone
  | n :: rest =>
      match n with
      | VDict d => if sortindex_is_1 d then text_or_value d
                   else first_sortindex_1 rest
      | _ => first_sortindex_1 rest
      end
  end.

(** Lines 144-166: [name] from [name_data = game.get("name")] *)
Definition extract_name (name_data : value) : value :=
  match name_data with
  | VList l =>
      let name := first_sortindex_1 l in
      if is_None name && truthy name_data then
        match l with
        | VDict first_name :: _ => text_or_value first_name
        | first_name :: _ => VStr (str first_name)
        | [] => name
        end
      else name
  | VDict d => text_or_value d
  | _ => if truthy name_data then VStr (str name_data) else VNone
  end.

(** Lines 139-171: one pass through the loop over the items *)
Definition parse_game (game : value) : result ParsedGame :=
  objectid <- get game "@objectid" VNone ;;
  name_data <- get game "name" VNone ;;
  Return {| objectid := objectid; name := extract_name name_data |}.

(** Lines 138-171: [result] after the loop; an exception in one pass ends
    the loop. *)
Fixpoint parse_games (items : list value) : result (list ParsedGame) :=
  match items with
  | [] => Return []
  | game :: rest =>
      g <- parse_game game ;;
      result <- parse_games rest ;;
      Return (g :: result)
  end.

(** Lines 130-173, on the tree [data] the parser returned *)
Definition normalise (data : dict) : result CollectionResult :=
  match lookup "message" data with
  | Some message =>
      Return (Processing (match message with
                          | VDict d => dict_get d "#text" VNone
                          | _ => message
                          end))
  | None =>
      items <- get (dict_get data "items" (VDict [])) "item" (VList []) ;;
      let items := if isinstance_dict items then VList [items] else items in
      games <- iter items ;;
      result <- parse_games games ;;
      Return (Ok (Z.of_nat (length result)) result)
  end.

(** *** The specification's reading of the tree, for stating the results *)

(** A candidate name whose [sortindex] attribute is ["1"] or [1]. *)
Definition has_sortindex_1 (n : value) : bool :=
  match n with
  | VDict d => sortindex_is_1 d
  | _ => false
  end.

(** Section 4.2, step 4 (c): the entry with sortindex 1, else the first. *)
Definition chosen_candidate (l : list value) : option value :=
  match find has_sortindex_1 l with
  | Some n => Some n
  | None => hd_error l
  end.

(** The node at [items -> item], when the tree has one. *)
Definition item_node (data : dict) : option value :=
  match lookup "items" data with
  | Some (VDict items) => lookup "item" items
  | _ => None
  end.

(** Section 4.2, step 3: absent is the empty sequence, a single mapping a
    one-element sequence, a sequence itself. *)
Definition item_list (data : dict) : list value :=
  match item_node data with
  | None => []
  | Some (VList l) => l
  | Some v => [v]
  end.

(** The shapes step 3 lists: no message at the top, [items] absent or a
    mapping, and [item] absent, a mapping or a sequence of mappings. *)
Definition listed_shape (data : dict) : bool :=
  match lookup "items" data with
  | None => true
  | Some (VDict items) =>
      match lookup "item" items with
      | None => true
      | Some (VDict _) => true
      | Some (VList l) => forallb isinstance_dict l
      | Some _ => false
      end
  | Some _ => false
  end.

(** What lines 141-171 write for an item mapping [g]. *)
Definition game_of (g : dict) : ParsedGame :=
  {| objectid := dict_get g "@objectid" VNone;
     name := extract_name (dict_get g "name" VNone) |}.

End Normalizer.

(* ================================================================== *)
(** ** The endpoint: lines 38-173 *)
(* ================================================================== *)

Module Endpoint.

Import Fetcher Normalizer.

Section Handler.

Variable BGG_TOKEN : string.
Variable upstream : nat -> outcome.

(** [xmltodict.parse]: the tree, or [str(e)] of the exception it raised. *)
Variable xmltodict_parse : string -> dict + string.

(** Lines 118-173: what the handler does with the 200 response. *)
Definition parse_and_normalise (xml : string) : result CollectionResult :=
  match xmltodict_parse xml with
  | inr e =>
      Raise (HTTPException 502
               ("Could not parse BGG XML response: " ++ e
                ++ ". Received response: " ++ slice_to 500 xml))
  | inl data => normalise data
  end.

(** The whole handler: the trace of upstream calls and delays, and the
    answer or the exception. *)
Definition get_bgg_games (username : string)
  : list event * result CollectionResult :=
  if negb (truthy (VStr username)) then
    ([], Raise (HTTPException 400 "username is required"))
  else
    let '(tr, x) := fetch BGG_TOKEN upstream username in
    match x with
    | Failed e => (tr, Raise e)
    | Exhausted =>
        (tr, Raise (HTTPException 503
                      ("Could not retrieve collection after "
                       ++ str_of_int max_retries ++ " attempts")))
    | Broke resp => (tr, parse_and_normalise (text resp))
    end.

End Handler.

End Endpoint.

(* ================================================================== *)
(** ** Start-up: lines 24-30 *)
(* ================================================================== *)

Module Startup.

(** How loading the module ends: the application is defined with its
    token, or line 28 raises [ValueError] and nothing is served. *)
Inductive startup : Type :=
| Serving (BGG_TOKEN : string)
| Refused (ValueError : string).

(** Lines 25-30, on the environment as [load_dotenv] left it:
    [os.getenv] gives [None] for a variable that is not set, and [not]
    holds of [None] and of the empty string. *)
Definition load_token (environ : string -> option string) : startup :=
  match environ "BGG_TOKEN" with
  | Some BGG_TOKEN =>
      if negb (truthy (VStr BGG_TOKEN)) then
        Refused "BGG_TOKEN is not configured. Please set the BGG_TOKEN environment variable in the 'env' file."
      else Serving BGG_TOKEN
  | None =>
      Refused "BGG_TOKEN is not configured. Please set the BGG_TOKEN environment variable in the 'env' file."
  end.

End Startup.

(* ================================================================== *)
(** ** Shapes of trees, for stating the results *)
(* ================================================================== *)

Module Shapes.

Import Normalizer.

(** A string or [None]: what the answer may hold as a name. *)
Definition str_or_None (v : value) : bool :=
  match v with
  | VNone | VStr _ => true
  | _ => false
  end.

(** An entry that is absent or a string, as the parser writes text and
    attributes. *)
Definition absent_or_str (o : option value) : bool :=
  match o with
  | None | Some (VStr _) => true
  | Some _ => false
  end.

(** A candidate name whose [#text] and [@value], when present, are
    strings; a candidate that is no mapping has neither. *)
Definition textual (n : value) : bool :=
  match n with
  | VDict d => absent_or_str (lookup "#text" d)
               && absent_or_str (lookup "@value" d)
  | _ => true
  end.

(** A name node all of whose candidates are textual. *)
Definition textual_name (name_data : value) : bool :=
  match name_data with
  | VList l => forallb textual l
  | _ => textual name_data
  end.

(** The trees on which lines 134-171 raise nothing: [items] absent or a
    mapping, and [item] absent, a mapping, a sequence of mappings, or the
    empty string (a loop over no character). *)
Definition iterable_items (data : dict) : bool :=
  match lookup "items" data with
  | None => true
  | Some (VDict items) =>
      match lookup "item" items with
      | None => true
      | Some (VDict _) => true
      | Some (VList l) => forallb isinstance_dict l
      | Some (VStr s) => String.eqb s ""
      | Some _ => false
      end
  | Some _ => false
  end.

End Shapes.

(* ================================================================== *)
(** ** Sample upstreams and trees *)
(* ================================================================== *)

Module Examples.

Import Fetcher Normalizer.

(** An upstream that answers every call alike, and a response. *)
Definition always (o : outcome) : nat -> outcome := fun _ => o.

Definition answer (code : Z) (body : string) : outcome :=
  Responded {| status_code := code; text := body |}.

(** Two calls still being processed, then a 404. *)
Definition processing_twice_then_404 : nat -> outcome :=
  fun n => if (n <? 2)%nat then answer 202 "" else answer 404 "Not Found".

(** A parser that rejects every text, and one that returns [data]. *)
Definition rejecting (e : string) : string -> dict + string :=
  fun _ => inr e.

Definition yielding (data : dict) : string -> dict + string :=
  fun _ => inl data.

(** The two candidate sequences of section 8 of the specification, and
    one whose sortindex is the integer 1. *)
Definition names_B_then_A : list value :=
  [VDict [("@sortindex", VStr "2"); ("#text", VStr "B")];
   VDict [("@sortindex", VStr "1"); ("#text", VStr "A")]].

Definition names_B_only : list value :=
  [VDict [("@sortindex", VStr "2"); ("#text", VStr "B")]].

Definition names_integer_sortindex : list value :=
  [VDict [("@sortindex", VInt 2); ("@value", VStr "B")];
   VDict [("@sortindex", VInt 1); ("@value", VStr "A")]].

(** [<name type="primary" sortindex="1"/>]: attributes, no text, no value. *)
Definition name_attributes_only : dict :=
  [("@type", VStr "primary"); ("@sortindex", VStr "1")].

(** [<item objectid="13">] with the given name node. *)
Definition item_13 (name_data : value) : dict :=
  [("@objectid", VStr "13"); ("name", name_data)].

(** [<items totalitems="1">] around the given [item] node. *)
Definition collection (item : value) : dict :=
  [("items", VDict [("@totalitems", VStr "1"); ("item", item)])].

(** [<items/>], [<items><item/></items>] and [<items>text</items>] as
    [xmltodict] returns them. *)
Definition items_null : dict := [("items", VNone)].

Definition item_null : dict := [("items", VDict [("item", VNone)])].

Definition items_text : dict := [("items", VStr "none")].

(** [<message>...</message>] alone, and with attributes. *)
Definition message_only : dict :=
  [("message", VStr "Your request for this collection has been accepted")].

Definition message_with_attribute : dict :=
  [("message", VDict [("@code", VStr "202"); ("#text", VStr "Please wait")])].

(** A busy upstream that answers on the second call (section 8 of the
    specification), and one whose every call times out. *)
Definition busy_then_200 (body : string) : nat -> outcome :=
  fun n => if (n <? 1)%nat then answer 500 "" else answer 200 body.

Definition timing_out : nat -> outcome :=
  always (TimeoutException "ReadTimeout").

(** [<items totalitems="0"/>] *)
Definition empty_collection : dict :=
  [("items", VDict [("@totalitems", VStr "0")])].

End Examples.

(* ================================================================== *)
(** ** Results on the fetcher *)
(* ================================================================== *)

Module FetcherFacts.

Import Fetcher.

Lemma range_max_retries : range max_retries = [0; 1; 2; 3; 4].
Proof. reflexivity. Qed.

(** *** One pass through the loop body *)

Lemma retry_or_early attempt e :
  attempt < max_retries - 1 ->
  retry_or attempt e = ([Sleep retry_delay], Continue).
Proof.
  intros H. unfold retry_or.
  destruct (Z.ltb_spec attempt (max_retries - 1)); [reflexivity | lia].
Qed.

Lemma retry_or_late attempt e :
  ~ attempt < max_retries - 1 ->
  retry_or attempt e = ([], Raised e).
Proof.
  intros H. unfold retry_or.
  destruct (Z.ltb_spec attempt (max_retries - 1)); [lia | reflexivity].
Qed.

Lemma retry_or_cases attempt e :
  retry_or attempt e = ([Sleep retry_delay], Continue) /\ attempt < max_retries - 1
  \/ retry_or attempt e = ([], Raised e) /\ ~ attempt < max_retries - 1.
Proof.
  destruct (Z.lt_decidable attempt (max_retries - 1)) as [H | H].
  - left. split; [apply retry_or_early | ]; assumption.
  - right. split; [apply retry_or_late | ]; assumption.
Qed.

Lemma body_retried attempt o :
  retried o = true ->
  attempt < max_retries - 1 ->
  body attempt o = ([Sleep retry_delay], Continue).
Proof.
  intros Hr Ha. revert Hr.
  body_cases o; intros Hr; try discriminate Hr;
    apply retry_or_early; assumption.
Qed.

Lemma body_unexpected attempt resp :
  unexpected (status_code resp) = true ->
  body attempt (Responded resp)
  = ([], Raised (HTTPException 502
                   ("BGG returned HTTP error " ++ str_of_int (status_code resp)
                    ++ ": " ++ slice_to 200 (text resp)))).
Proof.
  unfold body, unexpected.
  destruct (status_code resp =? 202), (status_code resp =? 500),
    (status_code resp =? 503), (status_code resp =? 200);
    cbn [orb negb]; intros H; try discriminate H; reflexivity.
Qed.

Lemma body_continue attempt o :
  snd (body attempt o) = Continue ->
  attempt < max_retries - 1 /\ retried o = true
  /\ fst (body attempt o) = [Sleep retry_delay].
Proof.
  body_cases o;
    try (cbn; discriminate);
    match goal with
    | |- context [retry_or ?a ?x] =>
        destruct (retry_or_cases a x) as [[-> H] | [-> H]]
    end; cbn; intros Hc; try discriminate Hc; auto.
Qed.

Lemma body_last attempt o :
  ~ attempt < max_retries - 1 -> snd (body attempt o) <> Continue.
Proof.
  intros H Hc. apply body_continue in Hc. tauto.
Qed.

Lemma body_break attempt o resp :
  snd (body attempt o) = Break resp ->
  o = Responded resp /\ status_code resp = 200 /\ fst (body attempt o) = [].
Proof.
  body_cases o;
    try match goal with
    | |- context [retry_or ?a ?x] =>
        destruct (retry_or_cases a x) as [[-> H] | [-> H]]
    end; cbn; intros Hc; try discriminate Hc.
  injection Hc as <-. repeat split. apply Z.eqb_eq, E200.
Qed.

Lemma body_raised attempt o e :
  snd (body attempt o) = Raised e ->
  classified e = true \/ exists s, o = OtherException s /\ e = Propagated s.
Proof.
  body_cases o;
    try match goal with
    | |- context [retry_or ?a ?x] =>
        destruct (retry_or_cases a x) as [[-> H] | [-> H]]
    end; cbn; intros Hc; try discriminate Hc;
    injection Hc as <-; try (left; reflexivity).
  right. eauto.
Qed.

(** *** The loop *)

Section Loop.

Variable BGG_TOKEN : string.
Variable upstream : nat -> outcome.
Variable username : string.

Local Abbreviation call := (Get (url username) (authorization BGG_TOKEN)).
Local Abbreviation loop := (retry_loop BGG_TOKEN upstream username).
Local Abbreviation again := (retries (url username) (authorization BGG_TOKEN)).

Lemma loop_cons calls attempt rest :
  loop calls (attempt :: rest)
  = match snd (body attempt (upstream calls)) with
    | Continue =>
        (call :: (fst (body attempt (upstream calls))
                  ++ fst (loop (S calls) rest))%list,
         snd (loop (S calls) rest))
    | Break resp => (call :: fst (body attempt (upstream calls)), Broke resp)
    | Raised e => (call :: fst (body attempt (upstream calls)), Failed e)
    end.
Proof.
  cbn [retry_loop].
  destruct (body attempt (upstream calls)) as [after c]. cbn [fst snd].
  destruct c; try reflexivity.
  destruct (retry_loop BGG_TOKEN upstream username (S calls) rest).
  reflexivity.
Qed.

(** A retried outcome on an attempt that is not the last costs one call
    and one delay, and the loop goes on with the next attempt. *)
Lemma loop_retried calls attempt rest :
  retried (upstream calls) = true ->
  attempt < max_retries - 1 ->
  loop calls (attempt :: rest)
  = (call :: Sleep retry_delay :: fst (loop (S calls) rest),
     snd (loop (S calls) rest)).
Proof.
  intros Hr Ha. rewrite loop_cons, (body_retried _ _ Hr Ha). reflexivity.
Qed.

Lemma loop_prefix pre : forall calls rest,
  Forall (fun attempt => attempt < max_retries - 1) pre ->
  (forall i, (i < length pre)%nat -> retried (upstream (calls + i)) = true) ->
  loop calls (pre ++ rest)
  = ((again (length pre) ++ fst (loop (calls + length pre) rest))%list,
     snd (loop (calls + length pre) rest)).
Proof.
  induction pre as [| attempt pre IH]; intros calls rest Hpre Hret.
  - cbn. rewrite Nat.add_0_r. destruct (loop calls rest); reflexivity.
  - inversion Hpre as [| ? ? Ha Hpre']; subst.
    cbn [app length]. rewrite loop_retried.
    + rewrite IH.
      * cbn [fst snd]. replace (S calls + length pre)%nat
          with (calls + S (length pre))%nat by lia.
        reflexivity.
      * assumption.
      * intros i Hi. replace (S calls + i)%nat with (calls + S i)%nat by lia.
        apply Hret. cbn. lia.
    + specialize (Hret 0%nat). rewrite Nat.add_0_r in Hret.
      apply Hret. cbn. lia.
    + assumption.
Qed.

(** Every pass makes one call, so the calls are at most the attempts. *)
Lemma loop_attempts_bound attempts : forall calls,
  (attempts_made (fst (loop calls attempts)) <= length attempts)%nat.
Proof.
  induction attempts as [| attempt rest IH]; intros calls.
  - cbn. lia.
  - rewrite loop_cons.
    destruct (snd (body attempt (upstream calls))) eqn:Hc.
    + apply body_continue in Hc as (_ & _ & ->).
      specialize (IH (S calls)). unfold attempts_made in *.
      cbn [fst]. cbn. lia.
    + apply body_break in Hc as (_ & _ & ->).
      unfold attempts_made. cbn. lia.
    + unfold attempts_made. cbn [fst].
      assert (Hs : forall a o, filter is_get (fst (body a o)) = []).
      { intros a o. body_cases o; unfold retry_or;
          try destruct (a <? max_retries - 1); reflexivity. }
      cbn. rewrite Hs. cbn. lia.
Qed.

(** The loop cannot run out of attempts when its last pass has no
    attempt left after it: that pass breaks or raises. *)
Lemma loop_not_exhausted attempts : forall calls,
  attempts <> [] ->
  ~ last attempts 0 < max_retries - 1 ->
  snd (loop calls attempts) <> Exhausted.
Proof.
  induction attempts as [| attempt rest IH]; intros calls Hne Hlast.
  - congruence.
  - rewrite loop_cons.
    destruct (snd (body attempt (upstream calls))) eqn:Hc;
      cbn [snd]; try discriminate.
    destruct rest as [| next rest'].
    + exfalso. revert Hc. apply body_last. exact Hlast.
    + apply IH; [discriminate | exact Hlast].
Qed.

Lemma loop_exit_cases attempts : forall calls,
  match snd (loop calls attempts) with
  | Broke resp => status_code resp = 200
  | Failed e =>
      classified e = true
      \/ exists i s, upstream i = OtherException s /\ e = Propagated s
  | Exhausted => True
  end.
Proof.
  induction attempts as [| attempt rest IH]; intros calls.
  - exact I.
  - rewrite loop_cons.
    destruct (snd (body attempt (upstream calls))) eqn:Hc; cbn [snd].
    + apply IH.
    + apply body_break in Hc. tauto.
    + apply body_raised in Hc as [Hc | (s & Ho & ->)]; [left | right]; eauto.
Qed.

(** An unexpected status ends the loop on the spot, whatever came before
    and whatever attempts were left. *)
Lemma loop_unexpected pre calls attempt rest resp :
  Forall (fun a => a < max_retries - 1) pre ->
  (forall i, (i < length pre)%nat -> retried (upstream (calls + i)) = true) ->
  upstream (calls + length pre) = Responded resp ->
  unexpected (status_code resp) = true ->
  loop calls (pre ++ attempt :: rest)
  = ((again (length pre) ++ [call])%list,
     Failed (HTTPException 502
               ("BGG returned HTTP error " ++ str_of_int (status_code resp)
                ++ ": " ++ slice_to 200 (text resp)))).
Proof.
  intros Hpre Hret Hk Hu.
  rewrite (loop_prefix pre calls (attempt :: rest) Hpre Hret).
  rewrite loop_cons, Hk, (body_unexpected _ _ Hu). reflexivity.
Qed.

(** Status 202 on each of the five calls: four delayed retries, a fifth
    call, and the 202 failure. *)
Lemma fetch_all_202 :
  (forall n, (n < 5)%nat -> status_of (upstream n) = Some 202) ->
  fetch BGG_TOKEN upstream username
  = ((again 4 ++ [call])%list,
     Failed (HTTPException 202
               "BGG is processing the collection. Please try again in a few moments.")).
Proof.
  intros H202.
  assert (Hret : forall n, (n < 5)%nat -> retried (upstream n) = true).
  { intros n Hn. specialize (H202 n Hn). unfold status_of, retried in *.
    destruct (upstream n); try discriminate.
    injection H202 as ->. reflexivity. }
  unfold fetch. rewrite range_max_retries.
  change [0; 1; 2; 3; 4] with ([0; 1; 2; 3] ++ [4])%list.
  rewrite loop_prefix.
  - cbn [length Nat.add]. rewrite loop_cons.
    specialize (H202 4%nat ltac:(lia)). unfold status_of in H202.
    destruct (upstream 4) as [resp | | | ]; try discriminate.
    injection H202 as H202. unfold body. rewrite H202. reflexivity.
  - repeat constructor; unfold max_retries; lia.
  - intros i Hi. apply Hret. cbn in Hi. cbn. lia.
Qed.

(** No branch of the body raises the failure of the [else] clause. *)
Lemma loop_failure_not_fallback attempts : forall calls e,
  snd (loop calls attempts) = Failed e ->
  e <> HTTPException 503
         ("Could not retrieve collection after " ++ str_of_int max_retries
          ++ " attempts").
Proof.
  induction attempts as [| attempt rest IH]; intros calls e.
  - cbn. discriminate.
  - rewrite loop_cons.
    destruct (snd (body attempt (upstream calls))) eqn:Hc; cbn [snd].
    + apply IH.
    + discriminate.
    + intros He. injection He as <-. revert Hc.
      body_cases (upstream calls);
        try match goal with
        | |- context [retry_or ?a ?x] =>
            destruct (retry_or_cases a x) as [[-> H] | [-> H]]
        end; cbn; intros Hc; try discriminate Hc;
        injection Hc as <-; discriminate.
Qed.

(** A loop left by [break] made its calls one after the other, each but
    the last followed by one delay, and the last one returned the 200
    response it hands on. *)
Lemma loop_broke attempts : forall calls tr resp,
  loop calls attempts = (tr, Broke resp) ->
  exists k, (k < length attempts)%nat
            /\ tr = (again k ++ [call])%list
            /\ upstream (calls + k) = Responded resp
            /\ status_code resp = 200.
Proof.
  induction attempts as [| attempt rest IH]; intros calls tr resp.
  - cbn. discriminate.
  - rewrite loop_cons.
    destruct (snd (body attempt (upstream calls))) eqn:Hc.
    + apply body_continue in Hc as (_ & _ & ->).
      destruct (loop (S calls) rest) as [tr' x] eqn:Hl. cbn [fst snd app].
      intros H. injection H as <- ->.
      destruct (IH _ _ _ Hl) as (k & Hk & -> & Hu & H200).
      exists (S k). repeat split; [cbn; lia | | exact H200].
      replace (calls + S k)%nat with (S calls + k)%nat by lia. exact Hu.
    + apply body_break in Hc as (Ho & H200 & ->).
      intros H. injection H as <- <-.
      exists 0%nat. rewrite Nat.add_0_r.
      repeat split; [cbn; lia | exact Ho | exact H200].
    + discriminate.
Qed.

Lemma attempts_made_retries u a k :
  attempts_made (retries u a k ++ [Get u a]) = S k.
Proof.
  unfold attempts_made. induction k as [| k IH]; [reflexivity | ].
  cbn. rewrite IH. reflexivity.
Qed.

Lemma delays_retries u a k :
  delays (retries u a k ++ [Get u a]) = repeat retry_delay k.
Proof.
  unfold delays. induction k as [| k IH]; [reflexivity | ].
  cbn. cbn in IH. rewrite IH. reflexivity.
Qed.

End Loop.

End FetcherFacts.

(* ================================================================== *)
(** ** Results on the normaliser *)
(* ================================================================== *)

Module NormalizerFacts.

Import Normalizer.

(** *** Dictionaries *)

Lemma dict_get_present d k default v :
  lookup k d = Some v -> dict_get d k default = v.
Proof. unfold dict_get. intros ->. reflexivity. Qed.

Lemma dict_get_absent d k default :
  lookup k d = None -> dict_get d k default = default.
Proof. unfold dict_get. intros ->. reflexivity. Qed.

Lemma dict_get_not_default d k default v :
  dict_get d k default = v -> v <> default -> lookup k d = Some v.
Proof.
  unfold dict_get. destruct (lookup k d); intros <- H; congruence.
Qed.

(** *** The name of one candidate *)

Lemma text_or_value_text d t :
  lookup "#text" d = Some t -> text_or_value d = t.
Proof. intros H. unfold text_or_value. apply dict_get_present, H. Qed.

Lemma text_or_value_value d v :
  lookup "#text" d = None -> lookup "@value" d = Some v ->
  text_or_value d = v.
Proof.
  intros Ht Hv. unfold text_or_value.
  rewrite (dict_get_absent _ _ _ Ht). apply dict_get_present, Hv.
Qed.

Lemma text_or_value_neither d :
  lookup "#text" d = None -> lookup "@value" d = None ->
  text_or_value d = VStr "".
Proof.
  intros Ht Hv. unfold text_or_value.
  rewrite (dict_get_absent _ _ _ Ht). apply dict_get_absent, Hv.
Qed.

Lemma eq_str_true v s : eq_str v s = true <-> v = VStr s.
Proof.
  destruct v; cbn; split; try discriminate; intros H.
  - apply String.eqb_eq in H. congruence.
  - injection H as ->. apply String.eqb_refl.
Qed.

Lemma eq_int_true v n : eq_int v n = true <-> v = VInt n.
Proof.
  destruct v; cbn; split; try discriminate; intros H.
  - apply Z.eqb_eq in H. congruence.
  - injection H as ->. apply Z.eqb_refl.
Qed.

Lemma sortindex_is_1_iff d :
  sortindex_is_1 d = true
  <-> lookup "@sortindex" d = Some (VStr "1")
      \/ lookup "@sortindex" d = Some (VInt 1).
Proof.
  unfold sortindex_is_1. rewrite orb_true_iff, eq_str_true, eq_int_true.
  split; intros [H | H].
  - left. apply (dict_get_not_default _ _ _ _ H). discriminate.
  - right. apply (dict_get_not_default _ _ _ _ H). discriminate.
  - left. apply dict_get_present, H.
  - right. apply dict_get_present, H.
Qed.

(** *** The loop over the candidates *)

(** The loop of lines 149-153 stops at the first candidate mapping
    with sortindex 1 and reads its name. *)
Lemma first_sortindex_1_find l :
  first_sortindex_1 l
  = match find has_sortindex_1 l with
    | Some (VDict d) => text_or_value d
    | _ => VNone
    end.
Proof.
  induction l as [| n rest IH]; [reflexivity | ].
  cbn [first_sortindex_1 find].
  destruct n as [ | s | z | d | l']; cbn [has_sortindex_1]; try exact IH.
  destruct (sortindex_is_1 d); [reflexivity | exact IH].
Qed.

Lemma find_has_sortindex_1_dict l n :
  find has_sortindex_1 l = Some n -> exists d, n = VDict d.
Proof.
  intros H. apply find_some in H as [_ H].
  destruct n; try discriminate H. eauto.
Qed.

Lemma extract_name_match l d :
  find has_sortindex_1 l = Some (VDict d) ->
  text_or_value d <> VNone ->
  extract_name (VList l) = text_or_value d.
Proof.
  intros Hf Hn. unfold extract_name.
  rewrite first_sortindex_1_find, Hf.
  destruct (text_or_value d); try reflexivity. congruence.
Qed.

Lemma extract_name_no_match d rest :
  find has_sortindex_1 (VDict d :: rest) = None ->
  extract_name (VList (VDict d :: rest)) = text_or_value d.
Proof.
  intros Hf. unfold extract_name.
  rewrite first_sortindex_1_find, Hf. reflexivity.
Qed.

(** *** The loop over the items *)

Lemma parse_game_dict g : parse_game (VDict g) = Return (game_of g).
Proof. reflexivity. Qed.

Lemma parse_game_not_dict game :
  isinstance_dict game = false -> parse_game game = Raise AttributeError.
Proof. destruct game; cbn; intros H; try discriminate H; reflexivity. Qed.

Lemma parse_games_length items : forall result,
  parse_games items = Return result -> length result = length items.
Proof.
  induction items as [| game rest IH]; intros result; cbn.
  - intros H. injection H as <-. reflexivity.
  - destruct (parse_game game); cbn; try discriminate.
    destruct (parse_games rest) as [gs | e]; cbn; try discriminate.
    intros H. injection H as <-. cbn. f_equal. apply IH. reflexivity.
Qed.

(** On a sequence of mappings the loop never raises and writes one
    record per item, in order. *)
Lemma parse_games_dicts items :
  forallb isinstance_dict items = true ->
  exists result,
    parse_games items = Return result
    /\ Forall2 (fun game pg => exists g, game = VDict g /\ pg = game_of g)
         items result.
Proof.
  induction items as [| game rest IH]; cbn; intros H.
  - exists []. split; [reflexivity | constructor].
  - apply andb_true_iff in H as [Hg Hrest].
    destruct (IH Hrest) as (result & -> & HF).
    destruct game as [ | | | g | ]; try discriminate Hg.
    exists (game_of g :: result). split; [reflexivity | ].
    constructor; [eauto | exact HF].
Qed.

Lemma normalise_raises data e :
  normalise data = Raise e -> e = AttributeError \/ e = TypeError.
Proof.
  unfold normalise. destruct (lookup "message" data); [discriminate | ].
  destruct (get (dict_get data "items" (VDict [])) "item" (VList []))
    as [items | e'] eqn:Hg; cbn.
  - destruct (iter (if isinstance_dict items then VList [items] else items))
      as [games | e'] eqn:Hi; cbn.
    + assert (Hp : forall l e0, parse_games l = Raise e0 -> e0 = AttributeError).
      { induction l as [| game rest IH]; cbn; intros e0; [discriminate | ].
        destruct game; cbn; try (intros H; injection H as <-; reflexivity).
        destruct (parse_games rest); cbn; [discriminate | ].
        intros H. injection H as <-. apply IH. reflexivity. }
      destruct (parse_games games) eqn:Hpg; cbn; [discriminate | ].
      intros H. injection H as <-. left. eapply Hp, Hpg.
    + intros H. injection H as <-. right.
      destruct (if isinstance_dict items then VList [items] else items);
        cbn in Hi; congruence.
  - intros H. injection H as <-. left.
    destruct (dict_get data "items" (VDict [])); cbn in Hg; congruence.
Qed.

(** *** The name of an item *)

(** C3 (as amended).  A name mapping, or the chosen candidate of a name
    sequence, that has neither a [#text] content nor a [@value] attribute
    gives the empty string as the name (the default lines 152, 158 and 163
    pass to [get]), never null; the item is still written with both of
    its fields. *)
Theorem name_without_text_or_value_is_empty (d : dict) :
  lookup "#text" d = None ->
  lookup "@value" d = None ->
  extract_name (VDict d) = VStr ""
  /\ (forall l, chosen_candidate l = Some (VDict d) ->
                extract_name (VList l) = VStr "")
  /\ (forall g name_data,
        lookup "name" g = Some name_data ->
        name_data = VDict d
        \/ (exists l, name_data = VList l
                      /\ chosen_candidate l = Some (VDict d)) ->
        parse_game (VDict g)
        = Return {| objectid := dict_get g "@objectid" VNone;
                    name := VStr "" |}).
Proof.
  intros Ht Hv.
  assert (Hd : text_or_value d = VStr "") by (apply text_or_value_neither; assumption).
  assert (Hl : forall l, chosen_candidate l = Some (VDict d) ->
                         extract_name (VList l) = VStr "").
  { intros l Hc. unfold chosen_candidate in Hc.
    destruct (find has_sortindex_1 l) as [n | ] eqn:Hf.
    - injection Hc as ->. rewrite (extract_name_match l d Hf); rewrite Hd;
        [reflexivity | discriminate].
    - destruct l as [| first rest]; [discriminate Hc | ].
      cbn in Hc. injection Hc as ->.
      rewrite (extract_name_no_match d rest Hf). exact Hd. }
  split; [exact Hd | split; [exact Hl | ]].
  intros g name_data Hn Hshape.
  rewrite parse_game_dict. unfold game_of.
  rewrite (dict_get_present _ _ _ _ Hn).
  destruct Hshape as [-> | (l & -> & Hc)]; [rewrite <- Hd | rewrite (Hl l Hc)];
    reflexivity.
Qed.

Lemma name_without_text_or_value_witness :
  extract_name (VDict Examples.name_attributes_only) = VStr ""
  /\ extract_name
       (VList [VDict [("@sortindex", VStr "2"); ("#text", VStr "B")];
               VDict Examples.name_attributes_only]) = VStr "".
Proof.
  destruct (name_without_text_or_value_is_empty Examples.name_attributes_only)
    as (Hd & Hl & _); [reflexivity | reflexivity | ].
  split; [exact Hd | apply Hl; reflexivity].
Defined.

(** C3 as stated fails: the name of [<name type="primary" sortindex="1"/>]
    is the empty string, not null, alone and as the chosen candidate. *)
Lemma name_without_text_or_value_not_null :
  lookup "#text" Examples.name_attributes_only = None
  /\ lookup "@value" Examples.name_attributes_only = None
  /\ extract_name (VDict Examples.name_attributes_only) <> VNone
  /\ chosen_candidate [VDict Examples.name_attributes_only]
     = Some (VDict Examples.name_attributes_only)
  /\ extract_name (VList [VDict Examples.name_attributes_only]) <> VNone
  /\ normalise
       (Examples.collection
          (VDict (Examples.item_13 (VDict Examples.name_attributes_only))))
     = Return (Ok 1 [{| objectid := VStr "13"; name := VStr "" |}]).
Proof.
  repeat split; try reflexivity; cbn; discriminate.
Qed.

(** C5.  In a sequence of candidate names the loop takes the first
    mapping whose [@sortindex] is the string ["1"] or the integer [1] and
    reads its name ([#text], else [@value]); when no candidate has
    sortindex 1 the name is read from the first entry.  The two sequences
    of section 8 give ["A"] and ["B"].  (A candidate whose [#text] is
    present and null, which the parser never builds, is passed over as if
    it had not matched: hence the premise of the second part.) *)
Theorem name_from_sortindex_1_else_first :
  (forall d, sortindex_is_1 d = true
             <-> lookup "@sortindex" d = Some (VStr "1")
                 \/ lookup "@sortindex" d = Some (VInt 1))
  /\ (forall l d,
        find has_sortindex_1 l = Some (VDict d) ->
        text_or_value d <> VNone ->
        extract_name (VList l) = text_or_value d)
  /\ (forall d rest,
        find has_sortindex_1 (VDict d :: rest) = None ->
        extract_name (VList (VDict d :: rest)) = text_or_value d)
  /\ (forall d t, lookup "#text" d = Some t -> text_or_value d = t)
  /\ (forall d v, lookup "#text" d = None -> lookup "@value" d = Some v ->
                  text_or_value d = v)
  /\ extract_name (VList Examples.names_B_then_A) = VStr "A"
  /\ extract_name (VList Examples.names_B_only) = VStr "B".
Proof.
  split; [exact sortindex_is_1_iff | ].
  split; [exact extract_name_match | ].
  split; [exact extract_name_no_match | ].
  split; [exact text_or_value_text | ].
  split; [exact text_or_value_value | ].
  split; reflexivity.
Qed.

Lemma name_from_sortindex_1_witness :
  extract_name (VList Examples.names_integer_sortindex) = VStr "A".
Proof.
  destruct name_from_sortindex_1_else_first as (_ & Hmatch & _).
  apply (Hmatch Examples.names_integer_sortindex
           [("@sortindex", VInt 1); ("@value", VStr "A")]);
    [reflexivity | discriminate].
Defined.

(** *** The item collection *)

Lemma normalise_no_message data :
  lookup "message" data = None ->
  normalise data
  = (items <- get (dict_get data "items" (VDict [])) "item" (VList []) ;;
     games <- iter (if isinstance_dict items then VList [items] else items) ;;
     result <- parse_games games ;;
     Return (Ok (Z.of_nat (length result)) result)).
Proof. unfold normalise. intros ->. reflexivity. Qed.

Lemma normalise_message data message :
  lookup "message" data = Some message ->
  normalise data
  = Return (Processing (match message with
                        | VDict d => dict_get d "#text" VNone
                        | _ => message
                        end)).
Proof. unfold normalise. intros ->. reflexivity. Qed.

(** C4 (as amended).  On a tree with a top-level message, or whose
    [items] node is absent or a mapping and whose [item] node is absent, a
    mapping or a sequence of mappings - with any shape at all at the
    [name] nodes - normalisation raises nothing: it returns a processing
    result, or an ok result with one record per item in upstream order,
    [count] being their number.  An item without objectid gets a null
    objectid and an item without name a null name. *)
Theorem normalise_listed_shapes (data : dict) :
  lookup "message" data <> None \/ listed_shape data = true ->
  ((exists message, normalise data = Return (Processing message))
   \/ (exists items,
         normalise data = Return (Ok (Z.of_nat (length items)) items)
         /\ Forall2 (fun game pg => exists g, game = VDict g /\ pg = game_of g)
              (item_list data) items))
  /\ (forall g, lookup "@objectid" g = None -> objectid (game_of g) = VNone)
  /\ (forall g, lookup "name" g = None -> name (game_of g) = VNone).
Proof.
  intros H. split; [ | split].
  - destruct (lookup "message" data) as [message | ] eqn:Hm.
    { left. eexists. apply (normalise_message _ _ Hm). }
    right. destruct H as [H | H]; [congruence | ].
    rewrite (normalise_no_message _ Hm).
    unfold listed_shape in H. unfold item_list, item_node, dict_get.
    destruct (lookup "items" data) as [[ | | | items | ] | ];
      try discriminate H; cbn [get].
    + unfold dict_get.
      destruct (lookup "item" items) as [[ | | | g | l] | ];
        try discriminate H; cbn.
      * exists [game_of g]. split; [reflexivity | ].
        constructor; [eauto | constructor].
      * destruct (parse_games_dicts l H) as (result & -> & HF).
        exists result. split; [reflexivity | exact HF].
      * exists []. split; [reflexivity | constructor].
    + cbn. exists []. split; [reflexivity | constructor].
  - intros g Hg. unfold game_of. cbn. apply dict_get_absent, Hg.
  - intros g Hg. unfold game_of. cbn.
    rewrite (dict_get_absent _ _ _ Hg). reflexivity.
Qed.

Lemma normalise_listed_shapes_witness :
  exists items,
    normalise
      (Examples.collection
         (VList [VDict (Examples.item_13 (VList Examples.names_B_then_A));
                 VDict []]))
    = Return (Ok (Z.of_nat (length items)) items)
    /\ length items = 2%nat.
Proof.
  destruct (normalise_listed_shapes
              (Examples.collection
                 (VList [VDict (Examples.item_13 (VList Examples.names_B_then_A));
                         VDict []])))
    as [[(message & Hm) | (items & Hn & HF)] _].
  - right. reflexivity.
  - discriminate Hm.
  - exists items. split; [exact Hn | ].
    symmetry. apply (Forall2_length HF).
Defined.

(** C4 as stated fails: a null [item] node, a scalar [items] node and a
    null entry in the item sequence each end the request with an
    exception no handler catches. *)
Lemma normalise_raises_outside_listed_shapes :
  normalise Examples.item_null = Raise TypeError
  /\ normalise Examples.items_text = Raise AttributeError
  /\ normalise
       (Examples.collection
          (VList [VDict (Examples.item_13 (VStr "Catan")); VNone]))
     = Raise AttributeError.
Proof. repeat split. Qed.

(** C6 (as amended).  A tree whose [items -> item] node is the single
    mapping [m] and a tree whose node is the one-element sequence [[m]]
    normalise to the same result; and a tree with no top-level message
    whose [items] node is absent, or is a mapping with no [item] entry,
    normalises to status ok with count 0 and no items. *)
Theorem single_item_is_one_element_sequence :
  (forall data1 data2 items1 items2 m,
     lookup "message" data1 = lookup "message" data2 ->
     lookup "items" data1 = Some (VDict items1) ->
     lookup "items" data2 = Some (VDict items2) ->
     lookup "item" items1 = Some (VDict m) ->
     lookup "item" items2 = Some (VList [VDict m]) ->
     normalise data1 = normalise data2)
  /\ (forall data,
        lookup "message" data = None ->
        lookup "items" data = None
        \/ (exists items, lookup "items" data = Some (VDict items)
                          /\ lookup "item" items = None) ->
        normalise data = Return (Ok 0 [])).
Proof.
  split.
  - intros data1 data2 items1 items2 m Hm H1 H2 Hi1 Hi2.
    unfold normalise. rewrite Hm.
    destruct (lookup "message" data2); [reflexivity | ].
    rewrite (dict_get_present _ _ _ _ H1), (dict_get_present _ _ _ _ H2).
    cbn [get bind].
    rewrite (dict_get_present _ _ _ _ Hi1), (dict_get_present _ _ _ _ Hi2).
    reflexivity.
  - intros data Hm Hshape. rewrite (normalise_no_message _ Hm).
    destruct Hshape as [H | (items & H & Hi)].
    + rewrite (dict_get_absent _ _ _ H). reflexivity.
    + rewrite (dict_get_present _ _ _ _ H). cbn [get bind].
      rewrite (dict_get_absent _ _ _ Hi). reflexivity.
Qed.

Lemma single_item_witness :
  normalise (Examples.collection (VDict (Examples.item_13 (VStr "Catan"))))
  = normalise
      (Examples.collection (VList [VDict (Examples.item_13 (VStr "Catan"))]))
  /\ normalise [("items", VDict [("@totalitems", VStr "0")])]
     = Return (Ok 0 []).
Proof.
  destruct single_item_is_one_element_sequence as [Hsame Hnone].
  split.
  - eapply Hsame; reflexivity.
  - apply Hnone; [reflexivity | ].
    right. eexists. split; reflexivity.
Defined.

(** C6 as stated fails: [<items/>] parses to a tree with no
    [items -> item] node and no message, and line 134 raises on it; and a
    tree that is a message alone has no such node either and gives the
    processing answer. *)
Lemma no_item_node_may_raise :
  item_node Examples.items_null = None
  /\ lookup "message" Examples.items_null = None
  /\ normalise Examples.items_null = Raise AttributeError
  /\ item_node Examples.message_only = None
  /\ normalise Examples.message_only
     = Return (Processing
                 (VStr "Your request for this collection has been accepted")).
Proof. repeat split. Qed.

(** C7.  In every ok answer of the normaliser, [count] is the length of
    [items]. *)
Theorem count_is_length_of_items (data : dict) (count : Z)
  (items : list ParsedGame) :
  normalise data = Return (Ok count items) ->
  count = Z.of_nat (length items).
Proof.
  unfold normalise.
  destruct (lookup "message" data); [discriminate | ].
  destruct (get (dict_get data "items" (VDict [])) "item" (VList []))
    as [node | e]; cbn [bind]; [ | discriminate].
  destruct (iter (if isinstance_dict node then VList [node] else node))
    as [games | e]; cbn [bind]; [ | discriminate].
  destruct (parse_games games) as [result | e]; cbn [bind]; [ | discriminate].
  intros H. injection H as <- <-. reflexivity.
Qed.

Lemma count_is_length_witness :
  normalise
    (Examples.collection
       (VList [VDict (Examples.item_13 (VList Examples.names_B_then_A));
               VDict (Examples.item_13 (VList Examples.names_B_only))]))
  = Return (Ok 2 [{| objectid := VStr "13"; name := VStr "A" |};
                  {| objectid := VStr "13"; name := VStr "B" |}])
  /\ 2 = Z.of_nat
           (length [{| objectid := VStr "13"; name := VStr "A" |};
                    {| objectid := VStr "13"; name := VStr "B" |}]).
Proof.
  split; [reflexivity | ].
  apply (count_is_length_of_items
           (Examples.collection
              (VList [VDict (Examples.item_13 (VList Examples.names_B_then_A));
                      VDict (Examples.item_13 (VList Examples.names_B_only))]))).
  reflexivity.
Defined.

End NormalizerFacts.

(* ================================================================== *)
(** ** Results on the endpoint *)
(* ================================================================== *)

Module EndpointFacts.

Import Fetcher Normalizer Endpoint.

(** *** Slices *)

Lemma slice_to_length n : forall s, (String.length (slice_to n s) <= n)%nat.
Proof.
  induction n as [| n IH]; intros s; [cbn; lia | ].
  destruct s as [| c s]; cbn; [lia | ]. specialize (IH s). lia.
Qed.

Lemma slice_to_prefix n : forall s, String.prefix (slice_to n s) s = true.
Proof.
  induction n as [| n IH]; intros s; [destruct s; reflexivity | ].
  destruct s as [| c s]; cbn; [reflexivity | ].
  destruct (ascii_dec c c); [apply IH | congruence].
Qed.

Lemma truthy_str username :
  username <> "" -> truthy (VStr username) = true.
Proof.
  intros H. cbn. destruct (String.eqb_spec username ""); [congruence | reflexivity].
Qed.

Section Handler.

Variable BGG_TOKEN : string.
Variable upstream : nat -> outcome.
Variable xmltodict_parse : string -> dict + string.
Variable username : string.

Local Abbreviation call := (Get (url username) (authorization BGG_TOKEN)).
Local Abbreviation again := (retries (url username) (authorization BGG_TOKEN)).
Local Abbreviation handler := (get_bgg_games BGG_TOKEN upstream xmltodict_parse).

(** With a username, the handler is the fetch followed by lines 111-173. *)
Lemma handler_fetch :
  username <> "" ->
  handler username
  = (fst (fetch BGG_TOKEN upstream username),
     match snd (fetch BGG_TOKEN upstream username) with
     | Failed e => Raise e
     | Exhausted =>
         Raise (HTTPException 503
                  ("Could not retrieve collection after "
                   ++ str_of_int max_retries ++ " attempts"))
     | Broke resp => parse_and_normalise xmltodict_parse (text resp)
     end).
Proof.
  intros H. unfold get_bgg_games.
  rewrite (truthy_str _ H). cbn [negb].
  destruct (fetch BGG_TOKEN upstream username) as [tr [resp | e | ]];
    reflexivity.
Qed.

Lemma handler_no_username :
  handler "" = ([], Raise (HTTPException 400 "username is required")).
Proof. reflexivity. Qed.

(** At most [max_retries] upstream calls, whatever the upstream does. *)
Lemma handler_attempts_bound :
  (attempts_made (fst (handler username)) <= 5)%nat.
Proof.
  destruct (string_dec username "") as [-> | H].
  - rewrite handler_no_username. cbn. lia.
  - rewrite (handler_fetch H). cbn [fst]. unfold fetch.
    rewrite FetcherFacts.range_max_retries.
    apply (FetcherFacts.loop_attempts_bound BGG_TOKEN upstream username
             [0; 1; 2; 3; 4] 0).
Qed.

(** *** The retry policy *)

(** C1.  When every upstream call answers 202, the handler makes exactly
    [max_retries] = 5 calls with exactly 4 delays of [retry_delay] = 5
    seconds between them, and then raises the 202 failure "BGG is
    processing the collection"; and whatever the upstream does, a request
    makes at most 5 calls. *)
Theorem processing_on_every_attempt :
  (username <> "" ->
   (forall n, (n < 5)%nat -> status_of (upstream n) = Some 202) ->
   handler username
   = ([call; Sleep 5; call; Sleep 5; call; Sleep 5; call; Sleep 5; call],
      Raise (HTTPException 202
               "BGG is processing the collection. Please try again in a few moments."))
   /\ attempts_made (fst (handler username)) = Z.to_nat max_retries
   /\ delays (fst (handler username))
      = repeat retry_delay (Z.to_nat (max_retries - 1)))
  /\ (attempts_made (fst (handler username)) <= Z.to_nat max_retries)%nat.
Proof.
  split; [ | exact handler_attempts_bound].
  intros Hu H202.
  assert (H : handler username
              = ([call; Sleep 5; call; Sleep 5; call; Sleep 5; call; Sleep 5; call],
                 Raise (HTTPException 202
                          "BGG is processing the collection. Please try again in a few moments."))).
  { rewrite (handler_fetch Hu).
    rewrite (FetcherFacts.fetch_all_202 BGG_TOKEN upstream username H202).
    reflexivity. }
  rewrite H. repeat split.
Qed.

(** C2.  When the first [k] calls were retried and call [k] (any of the
    five, the first included) answers a status other than 200, 202, 500
    and 503, the handler raises the 502 failure naming that status and
    the first 200 characters of the body; the trace ends with that call:
    no delay follows it and no further call is made. *)
Theorem unexpected_status_fails_at_once (k : nat) (resp : Response) :
  username <> "" ->
  (k < 5)%nat ->
  (forall i, (i < k)%nat -> retried (upstream i) = true) ->
  upstream k = Responded resp ->
  ~ In (status_code resp) [200; 202; 500; 503] ->
  handler username
  = ((again k ++ [call])%list,
     Raise (HTTPException 502
              ("BGG returned HTTP error " ++ str_of_int (status_code resp)
               ++ ": " ++ slice_to 200 (text resp))))
  /\ (String.length (slice_to 200 (text resp)) <= 200)%nat
  /\ attempts_made (fst (handler username)) = S k
  /\ delays (fst (handler username)) = repeat retry_delay k.
Proof.
  intros Hu Hk Hret Hresp Hstatus.
  assert (Hx : unexpected (status_code resp) = true).
  { unfold unexpected. cbn [In] in Hstatus.
    destruct (Z.eqb_spec (status_code resp) 200); [lia | ].
    destruct (Z.eqb_spec (status_code resp) 202); [lia | ].
    destruct (Z.eqb_spec (status_code resp) 500); [lia | ].
    destruct (Z.eqb_spec (status_code resp) 503); [lia | reflexivity]. }
  assert (H : fetch BGG_TOKEN upstream username
              = ((again k ++ [call])%list,
                 Failed (HTTPException 502
                           ("BGG returned HTTP error "
                            ++ str_of_int (status_code resp)
                            ++ ": " ++ slice_to 200 (text resp))))).
  { unfold fetch. rewrite FetcherFacts.range_max_retries.
    assert (Hsplit : exists pre attempt rest,
               [0; 1; 2; 3; 4] = (pre ++ attempt :: rest)%list
               /\ length pre = k
               /\ Forall (fun a => a < max_retries - 1) pre).
    { destruct k as [| [| [| [| [| k']]]]]; [ | | | | | lia].
      - exists [], 0, [1; 2; 3; 4]. repeat split. constructor.
      - exists [0], 1, [2; 3; 4]. repeat split.
        repeat constructor.
      - exists [0; 1], 2, [3; 4]. repeat split.
        repeat constructor.
      - exists [0; 1; 2], 3, [4]. repeat split.
        repeat constructor.
      - exists [0; 1; 2; 3], 4, []. repeat split.
        repeat constructor. }
    destruct Hsplit as (pre & attempt & rest & -> & Hlen & Hpre).
    rewrite <- Hlen.
    apply FetcherFacts.loop_unexpected; try assumption.
    - intros i Hi. apply Hret. cbn. lia.
    - cbn. rewrite Hlen. exact Hresp. }
  rewrite (handler_fetch Hu), H. cbn [fst snd].
  repeat split.
  - apply slice_to_length.
  - apply FetcherFacts.attempts_made_retries.
  - apply FetcherFacts.delays_retries.
Qed.

(** C10.  Whatever the upstream does on each attempt, the loop is never
    left through its [else] clause: it ends by [break] with a 200
    response, or by a failure of status 202, 503, 504 or 502 (or by an
    exception of the client that no handler names), after at most five
    calls; and the handler never raises the fallback failure "Could not
    retrieve collection after 5 attempts". *)
Theorem fallback_unreachable :
  snd (fetch BGG_TOKEN upstream username) <> Exhausted
  /\ match snd (fetch BGG_TOKEN upstream username) with
     | Broke resp => status_code resp = 200
     | Failed e =>
         classified e = true
         \/ exists i s, upstream i = OtherException s /\ e = Propagated s
     | Exhausted => False
     end
  /\ (attempts_made (fst (fetch BGG_TOKEN upstream username)) <= 5)%nat
  /\ snd (handler username)
     <> Raise (HTTPException 503
                 "Could not retrieve collection after 5 attempts").
Proof.
  assert (Hne : snd (fetch BGG_TOKEN upstream username) <> Exhausted).
  { unfold fetch. rewrite FetcherFacts.range_max_retries.
    apply FetcherFacts.loop_not_exhausted; [discriminate | ].
    cbn. unfold max_retries. lia. }
  split; [exact Hne | ]. split; [ | split].
  - pose proof (FetcherFacts.loop_exit_cases BGG_TOKEN upstream username
                  (range max_retries) 0) as H.
    fold (fetch BGG_TOKEN upstream username) in H.
    destruct (snd (fetch BGG_TOKEN upstream username)); [exact H | exact H | ].
    congruence.
  - unfold fetch. rewrite FetcherFacts.range_max_retries.
    apply (FetcherFacts.loop_attempts_bound BGG_TOKEN upstream username
             [0; 1; 2; 3; 4] 0).
  - destruct (string_dec username "") as [-> | Hu].
    { rewrite handler_no_username. cbn. discriminate. }
    rewrite (handler_fetch Hu). cbn [snd].
    destruct (snd (fetch BGG_TOKEN upstream username)) as [resp | e | ] eqn:Hx.
    + unfold parse_and_normalise.
      destruct (xmltodict_parse (text resp)) as [data | msg]; [ | discriminate].
      intros H. apply NormalizerFacts.normalise_raises in H.
      destruct H; discriminate.
    + intros H. injection H as ->. revert Hx.
      unfold fetch. intros Hx.
      apply FetcherFacts.loop_failure_not_fallback in Hx.
      apply Hx. reflexivity.
    + congruence.
Qed.

(** *** The 200 response *)

(** C9.  When the loop hands on a response (its status is then 200) and
    the parser rejects its text, the handler raises a 502 failure whose
    detail ends with the first 500 characters of that text, at most.
    Nothing else is raised, and the trace is the one of the fetch: its
    last event is the call that returned the response, so the parse
    failure causes no retry. *)
Theorem unparsable_body_is_502 (tr : list event) (resp : Response)
  (e : string) :
  username <> "" ->
  fetch BGG_TOKEN upstream username = (tr, Broke resp) ->
  xmltodict_parse (text resp) = inr e ->
  status_code resp = 200
  /\ handler username
     = (tr, Raise (HTTPException 502
                     ("Could not parse BGG XML response: " ++ e
                      ++ ". Received response: "
                      ++ slice_to 500 (text resp))))
  /\ (String.length (slice_to 500 (text resp)) <= 500)%nat
  /\ String.prefix (slice_to 500 (text resp)) (text resp) = true
  /\ exists k, (k < 5)%nat
               /\ upstream k = Responded resp
               /\ tr = (again k ++ [call])%list.
Proof.
  intros Hu Hf Hp.
  destruct (FetcherFacts.loop_broke BGG_TOKEN upstream username _ _ _ _ Hf)
    as (k & Hk & Htr & Hresp & H200).
  split; [exact H200 | ]. split; [ | split; [ | split]].
  - rewrite (handler_fetch Hu), Hf. cbn [fst snd].
    unfold parse_and_normalise. rewrite Hp. reflexivity.
  - apply slice_to_length.
  - apply slice_to_prefix.
  - exists k. repeat split; assumption.
Qed.

(** C8.  A parsed tree with a top-level [message] node gives the answer
    [{"status": "processing", "message": m}], which has no item list:
    [m] is the [#text] of a message mapping (null when it has none) and
    the node itself otherwise (its text, or null for an empty element).
    Nothing under [items] is looked at, and the handler returns this
    answer for a response of status 200. *)
Theorem message_means_processing (data : dict) (message : value) :
  lookup "message" data = Some message ->
  exists m,
    normalise data = Return (Processing m)
    /\ (forall d t, message = VDict d -> lookup "#text" d = Some t -> m = t)
    /\ (forall d, message = VDict d -> lookup "#text" d = None -> m = VNone)
    /\ (isinstance_dict message = false -> m = message)
    /\ (forall items, normalise (("items", items) :: data)
                      = Return (Processing m))
    /\ (forall tr resp,
          username <> "" ->
          fetch BGG_TOKEN upstream username = (tr, Broke resp) ->
          xmltodict_parse (text resp) = inl data ->
          status_code resp = 200
          /\ handler username = (tr, Return (Processing m))).
Proof.
  intros Hm. eexists. split; [apply (NormalizerFacts.normalise_message _ _ Hm) | ].
  split; [ | split; [ | split; [ | split]]].
  - intros d t -> Ht. apply NormalizerFacts.dict_get_present, Ht.
  - intros d -> Ht. apply NormalizerFacts.dict_get_absent, Ht.
  - destruct message; cbn; intros H; try discriminate H; reflexivity.
  - intros items. apply NormalizerFacts.normalise_message.
    cbn. exact Hm.
  - intros tr resp Hu Hf Hp.
    destruct (FetcherFacts.loop_broke BGG_TOKEN upstream username _ _ _ _ Hf)
      as (k & _ & _ & _ & H200).
    split; [exact H200 | ].
    rewrite (handler_fetch Hu), Hf. cbn [fst snd].
    unfold parse_and_normalise. rewrite Hp.
    rewrite (NormalizerFacts.normalise_message _ _ Hm). reflexivity.
Qed.

End Handler.

(** *** The theorems at sample inputs *)

Lemma processing_on_every_attempt_witness :
  attempts_made
    (fst (get_bgg_games "token" (Examples.always (Examples.answer 202 ""))
            (Examples.rejecting "no element found") "alice"))
  = 5%nat
  /\ snd (get_bgg_games "token" (Examples.always (Examples.answer 202 ""))
            (Examples.rejecting "no element found") "alice")
     = Raise (HTTPException 202
                "BGG is processing the collection. Please try again in a few moments.").
Proof.
  destruct (processing_on_every_attempt "token"
              (Examples.always (Examples.answer 202 ""))
              (Examples.rejecting "no element found") "alice")
    as [H _].
  destruct H as (Hrun & Hcalls & _); [discriminate | reflexivity | ].
  split; [exact Hcalls | rewrite Hrun; reflexivity].
Defined.

Lemma unexpected_status_witness :
  get_bgg_games "token" Examples.processing_twice_then_404
    (Examples.rejecting "no element found") "alice"
  = ([Get (url "alice") "Bearer token"; Sleep 5;
      Get (url "alice") "Bearer token"; Sleep 5;
      Get (url "alice") "Bearer token"],
     Raise (HTTPException 502 "BGG returned HTTP error 404: Not Found")).
Proof.
  apply (unexpected_status_fails_at_once "token"
           Examples.processing_twice_then_404
           (Examples.rejecting "no element found") "alice" 2
           {| status_code := 404; text := "Not Found" |}).
  - discriminate.
  - lia.
  - intros [| [| i]] Hi; [reflexivity | reflexivity | lia].
  - reflexivity.
  - cbn. lia.
Defined.

Lemma unparsable_body_witness :
  get_bgg_games "token" (Examples.always (Examples.answer 200 "<items"))
    (Examples.rejecting "no element found") "alice"
  = ([Get (url "alice") "Bearer token"],
     Raise (HTTPException 502
              "Could not parse BGG XML response: no element found. Received response: <items")).
Proof.
  apply (unparsable_body_is_502 "token"
           (Examples.always (Examples.answer 200 "<items"))
           (Examples.rejecting "no element found") "alice"
           [Get (url "alice") "Bearer token"]
           {| status_code := 200; text := "<items" |} "no element found");
    [discriminate | reflexivity | reflexivity].
Defined.

Lemma message_means_processing_witness :
  exists m,
    normalise Examples.message_with_attribute = Return (Processing m)
    /\ m = VStr "Please wait".
Proof.
  destruct (message_means_processing "token"
              (Examples.always (Examples.answer 200 "<message/>"))
              (Examples.yielding Examples.message_with_attribute) "alice"
              Examples.message_with_attribute
              (VDict [("@code", VStr "202"); ("#text", VStr "Please wait")]))
    as (m & Hn & Ht & _); [reflexivity | ].
  exists m. split; [exact Hn | ].
  apply (Ht [("@code", VStr "202"); ("#text", VStr "Please wait")]);
    reflexivity.
Defined.

End EndpointFacts.

(* ================================================================== *)
(** ** Further results on the retry policy *)
(* ================================================================== *)

Module RetryFacts.

Import Fetcher Normalizer Endpoint.

Lemma range_nth k attempt :
  nth_error (range max_retries) k = Some attempt ->
  attempt = Z.of_nat k /\ (k < 5)%nat.
Proof.
  rewrite FetcherFacts.range_max_retries.
  destruct k as [| [| [| [| [| k]]]]]; cbn; intros H;
    try (injection H as <-; split; [reflexivity | lia]).
  destruct k; discriminate H.
Qed.

Lemma range_split k :
  (k < 5)%nat ->
  exists pre rest,
    range max_retries = (pre ++ Z.of_nat k :: rest)%list
    /\ length pre = k
    /\ Forall (fun a => a < max_retries - 1) pre.
Proof.
  rewrite FetcherFacts.range_max_retries. intros Hk.
  destruct k as [| [| [| [| [| k']]]]]; [ | | | | | lia].
  - exists [], [1; 2; 3; 4]. repeat split. constructor.
  - exists [0], [2; 3; 4]. repeat split. repeat constructor.
  - exists [0; 1], [3; 4]. repeat split. repeat constructor.
  - exists [0; 1; 2], [4]. repeat split. repeat constructor.
  - exists [0; 1; 2; 3], []. repeat split. repeat constructor.
Qed.

(** A pass that raises adds no delay after its call. *)
Lemma body_raised_no_delay attempt o e :
  snd (body attempt o) = Raised e -> fst (body attempt o) = [].
Proof.
  body_cases o;
    try match goal with
    | |- context [retry_or ?a ?x] =>
        destruct (FetcherFacts.retry_or_cases a x) as [[-> H] | [-> H]]
    end; cbn; intros Hc; try discriminate Hc; reflexivity.
Qed.

(** Status 202, 503 and 504 are raised on the last attempt only. *)
Lemma body_raised_late attempt o c d :
  snd (body attempt o) = Raised (HTTPException c d) ->
  In c [202; 503; 504] ->
  ~ attempt < max_retries - 1.
Proof.
  body_cases o;
    try match goal with
    | |- context [retry_or ?a ?x] =>
        destruct (FetcherFacts.retry_or_cases a x) as [[-> H] | [-> H]]
    end; cbn; intros Hc Hin; try discriminate Hc; try exact H;
    injection Hc as <- _; lia.
Qed.

Section Policy.

Variable BGG_TOKEN : string.
Variable upstream : nat -> outcome.
Variable xmltodict_parse : string -> dict + string.
Variable username : string.

Local Abbreviation call := (Get (url username) (authorization BGG_TOKEN)).
Local Abbreviation loop := (retry_loop BGG_TOKEN upstream username).
Local Abbreviation again := (retries (url username) (authorization BGG_TOKEN)).
Local Abbreviation handler := (get_bgg_games BGG_TOKEN upstream xmltodict_parse).

(** However the loop is left, its trace is [k] delayed calls and one
    more call, the first [k] outcomes were retried ones, and the exit is
    what the body made of outcome [k]. *)
Lemma loop_exit_trace attempts : forall calls tr x,
  loop calls attempts = (tr, x) ->
  x <> Exhausted ->
  exists k attempt,
    nth_error attempts k = Some attempt
    /\ tr = (again k ++ [call])%list
    /\ (forall i, (i < k)%nat -> retried (upstream (calls + i)) = true)
    /\ body attempt (upstream (calls + k))
       = ([], match x with
              | Broke resp => Break resp
              | Failed e => Raised e
              | Exhausted => Continue
              end).
Proof.
  induction attempts as [| attempt rest IH]; intros calls tr x.
  - cbn. intros H. injection H as <- <-. congruence.
  - rewrite FetcherFacts.loop_cons.
    destruct (snd (body attempt (upstream calls))) eqn:Hc.
    + destruct (FetcherFacts.body_continue _ _ Hc) as (_ & Hr & ->).
      destruct (loop (S calls) rest) as [tr' x'] eqn:Hl. cbn [fst snd app].
      intros H Hx. injection H as <- ->.
      destruct (IH _ _ _ Hl Hx) as (k & a & Hn & -> & Hret & Hb).
      exists (S k), a. split; [exact Hn | ]. split; [reflexivity | ].
      split.
      * intros [| i] Hi.
        -- rewrite Nat.add_0_r. exact Hr.
        -- replace (calls + S i)%nat with (S calls + i)%nat by lia.
           apply Hret. lia.
      * replace (calls + S k)%nat with (S calls + k)%nat by lia. exact Hb.
    + destruct (FetcherFacts.body_break _ _ _ Hc) as (_ & _ & Hf).
      intros H _. injection H as <- <-.
      exists 0%nat, attempt. rewrite Nat.add_0_r.
      split; [reflexivity | ]. split; [rewrite Hf; reflexivity | ].
      split; [intros i Hi; lia | ].
      rewrite <- Hc, <- Hf. apply surjective_pairing.
    + pose proof (body_raised_no_delay _ _ _ Hc) as Hf.
      intros H _. injection H as <- <-.
      exists 0%nat, attempt. rewrite Nat.add_0_r.
      split; [reflexivity | ]. split; [rewrite Hf; reflexivity | ].
      split; [intros i Hi; lia | ].
      rewrite <- Hc, <- Hf. apply surjective_pairing.
Qed.

Lemma fetch_not_exhausted :
  snd (fetch BGG_TOKEN upstream username) <> Exhausted.
Proof.
  unfold fetch. rewrite FetcherFacts.range_max_retries.
  apply FetcherFacts.loop_not_exhausted; [discriminate | ].
  cbn. unfold max_retries. lia.
Qed.

Lemma fetch_exit_trace :
  exists k,
    (k < 5)%nat
    /\ fst (fetch BGG_TOKEN upstream username) = (again k ++ [call])%list
    /\ (forall i, (i < k)%nat -> retried (upstream i) = true)
    /\ body (Z.of_nat k) (upstream k)
       = ([], match snd (fetch BGG_TOKEN upstream username) with
              | Broke resp => Break resp
              | Failed e => Raised e
              | Exhausted => Continue
              end).
Proof.
  destruct (fetch BGG_TOKEN upstream username) as [tr x] eqn:Hf.
  pose proof fetch_not_exhausted as Hx. rewrite Hf in Hx. cbn [snd] in Hx.
  unfold fetch in Hf.
  destruct (loop_exit_trace _ _ _ _ Hf Hx) as (k & a & Hn & Htr & Hret & Hb).
  apply range_nth in Hn as [-> Hk].
  exists k. cbn [fst snd]. repeat split; assumption.
Qed.

Lemma in_retries ev k :
  In ev (again k ++ [call])%list -> ev = Sleep retry_delay \/ ev = call.
Proof.
  induction k as [| k IH]; cbn.
  - intros [<- | []]. right. reflexivity.
  - intros [<- | [<- | H]]; [right; reflexivity | left; reflexivity | ].
    apply IH, H.
Qed.

Lemma fetch_failed_codes c d :
  snd (fetch BGG_TOKEN upstream username) = Failed (HTTPException c d) ->
  In c [202; 502; 503; 504].
Proof.
  intros Hx.
  pose proof (FetcherFacts.loop_exit_cases BGG_TOKEN upstream username
                (range max_retries) 0) as H.
  fold (fetch BGG_TOKEN upstream username) in H. rewrite Hx in H.
  destruct H as [H | (i & s0 & _ & H)]; [ | discriminate H].
  cbn in H. cbn.
  destruct (Z.eqb_spec c 202); [lia | ].
  destruct (Z.eqb_spec c 503); [lia | ].
  destruct (Z.eqb_spec c 504); [lia | ].
  destruct (Z.eqb_spec c 502); [lia | discriminate H].
Qed.

Lemma handler_raise_codes c d :
  username <> "" ->
  snd (handler username) = Raise (HTTPException c d) ->
  In c [202; 502; 503; 504].
Proof.
  intros Hu. rewrite (EndpointFacts.handler_fetch _ _ _ _ Hu). cbn [snd].
  destruct (snd (fetch BGG_TOKEN upstream username)) as [resp | e | ] eqn:Hx.
  - unfold parse_and_normalise.
    destruct (xmltodict_parse (text resp)) as [data | msg].
    + intros H. apply NormalizerFacts.normalise_raises in H.
      destruct H; discriminate.
    + intros H. injection H as <- _. cbn. lia.
  - intros H. injection H as ->. apply (fetch_failed_codes _ _ Hx).
  - destruct (fetch_not_exhausted Hx).
Qed.

(** *** What a request does to the upstream *)

(** With a username, the trace of a request is always [k] calls each
    followed by one delay of [retry_delay] seconds, then one last call,
    for some [k < 5]: calls and delays alternate, no delay follows the
    last call, and the first [k] outcomes were all retried ones. *)
Theorem trace_is_calls_separated_by_delays :
  username <> "" ->
  exists k,
    (k < 5)%nat
    /\ fst (handler username) = (again k ++ [call])%list
    /\ attempts_made (fst (handler username)) = S k
    /\ delays (fst (handler username)) = repeat retry_delay k
    /\ (forall i, (i < k)%nat -> retried (upstream i) = true).
Proof.
  intros Hu. destruct fetch_exit_trace as (k & Hk & Htr & Hret & _).
  exists k. rewrite (EndpointFacts.handler_fetch _ _ _ _ Hu). cbn [fst].
  rewrite Htr. repeat split; try assumption.
  - apply FetcherFacts.attempts_made_retries.
  - apply FetcherFacts.delays_retries.
Qed.

(** A failure of status 202, 503 or 504 is raised only when all five
    attempts were used: the trace then holds five calls and four delays. *)
Theorem retry_statuses_mean_five_calls (c : Z) (d : string) :
  snd (handler username) = Raise (HTTPException c d) ->
  In c [202; 503; 504] ->
  fst (handler username) = (again 4 ++ [call])%list
  /\ attempts_made (fst (handler username)) = 5%nat.
Proof.
  intros Hr Hc.
  destruct (string_dec username "") as [-> | Hu].
  { rewrite EndpointFacts.handler_no_username in Hr. cbn in Hr.
    injection Hr as <- _. cbn in Hc. lia. }
  revert Hr. rewrite (EndpointFacts.handler_fetch _ _ _ _ Hu). cbn [fst snd].
  destruct fetch_exit_trace as (k & Hk & Htr & _ & Hb).
  destruct (snd (fetch BGG_TOKEN upstream username)) as [resp | e | ] eqn:Hx.
  - unfold parse_and_normalise.
    destruct (xmltodict_parse (text resp)) as [data | msg].
    + intros H. apply NormalizerFacts.normalise_raises in H.
      destruct H; discriminate.
    + intros H. injection H as <- _. cbn in Hc. lia.
  - intros H. injection H as ->.
    assert (Hlate : ~ Z.of_nat k < max_retries - 1).
    { apply (body_raised_late _ (upstream k) c d); [ | exact Hc].
      rewrite Hb. reflexivity. }
    assert (k = 4%nat) by (unfold max_retries in Hlate; lia). subst k.
    rewrite Htr. split; [reflexivity | ].
    apply FetcherFacts.attempts_made_retries.
  - destruct (fetch_not_exhausted Hx).
Qed.

(** The only [HTTPException] statuses the handler raises are 400, for
    the empty username alone, and 202, 502, 503 and 504. *)
Theorem handler_status_codes (c : Z) (d : string) :
  snd (get_bgg_games BGG_TOKEN upstream xmltodict_parse username)
  = Raise (HTTPException c d) ->
  (username = "" /\ c = 400)
  \/ (username <> "" /\ In c [202; 502; 503; 504]).
Proof.
  intros Hr. destruct (string_dec username "") as [-> | Hu].
  - left. rewrite EndpointFacts.handler_no_username in Hr.
    injection Hr as <- _. split; reflexivity.
  - right. split; [exact Hu | apply (handler_raise_codes _ _ Hu Hr)].
Qed.

(** The upstream is not called exactly when the username is empty, and
    that is exactly when the answer is the 400 failure. *)
Theorem no_call_iff_no_username :
  (attempts_made (fst (handler username)) = 0%nat <-> username = "")
  /\ (snd (handler username)
      = Raise (HTTPException 400 "username is required")
      <-> username = "").
Proof.
  split; split.
  - intros H0. destruct (string_dec username "") as [-> | Hu]; [reflexivity | ].
    destruct fetch_exit_trace as (k & _ & Htr & _).
    rewrite (EndpointFacts.handler_fetch _ _ _ _ Hu) in H0. cbn [fst] in H0.
    rewrite Htr, FetcherFacts.attempts_made_retries in H0. discriminate H0.
  - intros ->. reflexivity.
  - intros Hr. destruct (string_dec username "") as [-> | Hu]; [reflexivity | ].
    apply (handler_raise_codes _ _ Hu) in Hr. cbn in Hr. lia.
  - intros ->. reflexivity.
Qed.

(** After [k < 5] retried outcomes, a 200 response ends the loop: the
    answer is what lines 118-173 make of its text, after exactly [k]
    delays and [k + 1] calls. *)
Theorem success_after_retries (k : nat) (resp : Response) :
  username <> "" ->
  (k < 5)%nat ->
  (forall i, (i < k)%nat -> retried (upstream i) = true) ->
  upstream k = Responded resp ->
  status_code resp = 200 ->
  handler username
  = ((again k ++ [call])%list,
     parse_and_normalise xmltodict_parse (text resp))
  /\ delays (fst (handler username)) = repeat retry_delay k.
Proof.
  intros Hu Hk Hret Hresp H200.
  assert (H : fetch BGG_TOKEN upstream username
              = ((again k ++ [call])%list, Broke resp)).
  { unfold fetch.
    destruct (range_split k Hk) as (pre & rest & -> & Hlen & Hpre).
    rewrite FetcherFacts.loop_prefix; [ | exact Hpre | ].
    - rewrite Hlen. cbn [Nat.add]. rewrite FetcherFacts.loop_cons, Hresp.
      unfold body. rewrite H200. reflexivity.
    - intros i Hi. apply Hret. cbn. lia. }
  rewrite (EndpointFacts.handler_fetch _ _ _ _ Hu), H. cbn [fst snd].
  split; [reflexivity | apply FetcherFacts.delays_retries].
Qed.

(** When the first four outcomes were retried, the failure is decided
    by the fifth alone: status 500 or 503 gives the 503 failure, a
    timeout the 504 failure and another transport error the 502 failure,
    each of the last two with the text of that fifth exception. *)
Theorem fifth_outcome_decides_failure :
  username <> "" ->
  (forall i, (i < 4)%nat -> retried (upstream i) = true) ->
  (forall resp,
     upstream 4 = Responded resp ->
     status_code resp = 500 \/ status_code resp = 503 ->
     handler username
     = ((again 4 ++ [call])%list,
        Raise (HTTPException 503 "BGG is very busy. Please try again later.")))
  /\ (forall e,
        upstream 4 = TimeoutException e ->
        handler username
        = ((again 4 ++ [call])%list,
           Raise (HTTPException 504
                    ("Timeout contacting BGG after 5 attempts: " ++ e))))
  /\ (forall e,
        upstream 4 = HTTPError e ->
        handler username
        = ((again 4 ++ [call])%list,
           Raise (HTTPException 502
                    ("Error contacting BGG after 5 attempts: " ++ e)))).
Proof.
  intros Hu Hret.
  assert (H : fetch BGG_TOKEN upstream username
              = ((again 4 ++ [call])%list,
                 match snd (body 4 (upstream 4)) with
                 | Continue => Exhausted
                 | Break resp => Broke resp
                 | Raised e => Failed e
                 end)
              /\ fst (body 4 (upstream 4)) = []).
  { unfold fetch. rewrite FetcherFacts.range_max_retries.
    change [0; 1; 2; 3; 4] with ([0; 1; 2; 3] ++ [4])%list.
    assert (Hf : fst (body 4 (upstream 4)) = []).
    { destruct (snd (body 4 (upstream 4))) eqn:Hc.
      - apply FetcherFacts.body_continue in Hc as (Hc & _).
        unfold max_retries in Hc. lia.
      - apply FetcherFacts.body_break in Hc. tauto.
      - apply (body_raised_no_delay _ _ _ Hc). }
    split; [ | exact Hf].
    rewrite FetcherFacts.loop_prefix.
    - cbn [length Nat.add]. rewrite FetcherFacts.loop_cons, Hf.
      destruct (snd (body 4 (upstream 4))); reflexivity.
    - repeat constructor; unfold max_retries; lia.
    - intros i Hi. apply Hret. cbn in Hi. cbn. lia. }
  destruct H as [H _].
  rewrite (EndpointFacts.handler_fetch _ _ _ _ Hu), H. cbn [fst snd].
  split; [ | split].
  - intros resp -> [Hs | Hs]; unfold body; rewrite Hs; reflexivity.
  - intros e ->. reflexivity.
  - intros e ->. reflexivity.
Qed.

End Policy.

(** *** The theorems at sample inputs *)

Lemma trace_is_calls_separated_witness :
  exists k,
    (k < 5)%nat
    /\ fst (get_bgg_games "token" Examples.processing_twice_then_404
              (Examples.rejecting "no element found") "alice")
       = (retries (url "alice") (authorization "token") k
          ++ [Get (url "alice") (authorization "token")])%list.
Proof.
  destruct (trace_is_calls_separated_by_delays "token"
              Examples.processing_twice_then_404
              (Examples.rejecting "no element found") "alice")
    as (k & Hk & Htr & _); [discriminate | ].
  exists k. split; assumption.
Defined.

Lemma retry_statuses_mean_five_calls_witness :
  snd (get_bgg_games "token" Examples.timing_out
         (Examples.rejecting "no element found") "alice")
  = Raise (HTTPException 504
             "Timeout contacting BGG after 5 attempts: ReadTimeout")
  /\ attempts_made
       (fst (get_bgg_games "token" Examples.timing_out
               (Examples.rejecting "no element found") "alice"))
     = 5%nat.
Proof.
  split; [reflexivity | ].
  apply (retry_statuses_mean_five_calls "token" Examples.timing_out
           (Examples.rejecting "no element found") "alice" 504
           "Timeout contacting BGG after 5 attempts: ReadTimeout");
    [reflexivity | cbn; lia].
Defined.

Lemma handler_status_codes_witness :
  ("alice" = "" /\ 502 = 400)
  \/ ("alice" <> "" /\ In 502 [202; 502; 503; 504]).
Proof.
  apply (handler_status_codes "token" Examples.processing_twice_then_404
           (Examples.rejecting "no element found") "alice" 502
           "BGG returned HTTP error 404: Not Found").
  reflexivity.
Defined.

Lemma success_after_retries_witness :
  get_bgg_games "token" (Examples.busy_then_200 "<items totalitems='0'/>")
    (Examples.yielding Examples.empty_collection) "alice"
  = ([Get (url "alice") "Bearer token"; Sleep 5;
      Get (url "alice") "Bearer token"],
     Return (Ok 0 [])).
Proof.
  apply (success_after_retries "token"
           (Examples.busy_then_200 "<items totalitems='0'/>")
           (Examples.yielding Examples.empty_collection) "alice" 1
           {| status_code := 200; text := "<items totalitems='0'/>" |}).
  - discriminate.
  - lia.
  - intros [| i] Hi; [reflexivity | lia].
  - reflexivity.
  - reflexivity.
Defined.

Lemma fifth_outcome_decides_failure_witness :
  snd (get_bgg_games "token"
         (fun n => if (n <? 4)%nat then Examples.answer 202 ""
                   else HTTPError "ConnectError")
         (Examples.rejecting "no element found") "alice")
  = Raise (HTTPException 502
             "Error contacting BGG after 5 attempts: ConnectError").
Proof.
  destruct (fifth_outcome_decides_failure "token"
              (fun n => if (n <? 4)%nat then Examples.answer 202 ""
                        else HTTPError "ConnectError")
              (Examples.rejecting "no element found") "alice")
    as (_ & _ & Herr).
  - discriminate.
  - intros [| [| [| [| i]]]] Hi; reflexivity.
  - rewrite (Herr "ConnectError"); reflexivity.
Defined.

End RetryFacts.

(** *** The outcomes a request looks at *)

Module UpstreamFacts.

Import Fetcher Normalizer Endpoint.

Lemma retry_loop_ext BGG_TOKEN (u1 u2 : nat -> outcome) username attempts :
  forall calls,
    (forall i, (i < length attempts)%nat ->
               u1 (calls + i)%nat = u2 (calls + i)%nat) ->
    retry_loop BGG_TOKEN u1 username calls attempts
    = retry_loop BGG_TOKEN u2 username calls attempts.
Proof.
  induction attempts as [| attempt rest IH]; intros calls H; [reflexivity | ].
  cbn [retry_loop].
  pose proof (H 0%nat ltac:(cbn; lia)) as H0.
  rewrite Nat.add_0_r in H0. rewrite H0.
  rewrite (IH (S calls)); [reflexivity | ].
  intros i Hi. replace (S calls + i)%nat with (calls + S i)%nat by lia.
  apply H. cbn. lia.
Qed.

(** A request looks at the first five outcomes of the upstream and at
    nothing after them: two upstreams that agree on those give the same
    trace and the same answer. *)
Theorem only_five_outcomes_matter BGG_TOKEN (u1 u2 : nat -> outcome)
  (xmltodict_parse : string -> dict + string) (username : string) :
  (forall i, (i < 5)%nat -> u1 i = u2 i) ->
  get_bgg_games BGG_TOKEN u1 xmltodict_parse username
  = get_bgg_games BGG_TOKEN u2 xmltodict_parse username.
Proof.
  intros H. unfold get_bgg_games, fetch.
  rewrite (retry_loop_ext BGG_TOKEN u1 u2 username (range max_retries) 0);
    [reflexivity | ].
  intros i Hi. apply H. exact Hi.
Qed.

Lemma only_five_outcomes_witness :
  get_bgg_games "token" Examples.processing_twice_then_404
    (Examples.rejecting "no element found") "alice"
  = get_bgg_games "token"
      (fun n => if (n <? 5)%nat then Examples.processing_twice_then_404 n
                else Examples.answer 200 "<items/>")
      (Examples.rejecting "no element found") "alice".
Proof.
  apply only_five_outcomes_matter.
  intros i Hi. destruct (Nat.ltb_spec i 5); [reflexivity | lia].
Defined.

(** An answer is only ever made from a 200 response: when the handler
    returns, one of the first five calls returned status 200, every call
    before it had a retried outcome, the parser accepted the text of that
    response, and the answer is the normalised tree. *)
Theorem answer_comes_from_a_200_response BGG_TOKEN (upstream : nat -> outcome)
  (xmltodict_parse : string -> dict + string) (username : string)
  (r : CollectionResult) :
  snd (get_bgg_games BGG_TOKEN upstream xmltodict_parse username) = Return r ->
  exists k resp data,
    (k < 5)%nat
    /\ (forall i, (i < k)%nat -> retried (upstream i) = true)
    /\ upstream k = Responded resp
    /\ status_code resp = 200
    /\ xmltodict_parse (text resp) = inl data
    /\ normalise data = Return r
    /\ attempts_made
         (fst (get_bgg_games BGG_TOKEN upstream xmltodict_parse username))
       = S k.
Proof.
  destruct (string_dec username "") as [-> | Hu]; [discriminate | ].
  rewrite (EndpointFacts.handler_fetch _ _ _ _ Hu). cbn [fst snd].
  destruct (RetryFacts.fetch_exit_trace BGG_TOKEN upstream username)
    as (k & Hk & Htr & Hret & Hb).
  destruct (snd (fetch BGG_TOKEN upstream username)) as [resp | e | ];
    [ | discriminate | discriminate].
  unfold parse_and_normalise.
  destruct (xmltodict_parse (text resp)) as [data | msg] eqn:Hp;
    [ | discriminate].
  intros Hn.
  assert (Hc : snd (body (Z.of_nat k) (upstream k)) = Break resp)
    by (rewrite Hb; reflexivity).
  apply FetcherFacts.body_break in Hc as (Ho & H200 & _).
  exists k, resp, data. rewrite Htr.
  repeat split; try assumption.
  apply FetcherFacts.attempts_made_retries.
Qed.

Lemma answer_comes_from_a_200_witness :
  exists k resp data,
    (k < 5)%nat
    /\ Examples.always (Examples.answer 200 "<message/>") k = Responded resp
    /\ status_code resp = 200
    /\ Examples.yielding Examples.message_only (text resp) = inl data.
Proof.
  destruct (answer_comes_from_a_200_response "token"
              (Examples.always (Examples.answer 200 "<message/>"))
              (Examples.yielding Examples.message_only) "alice"
              (Processing
                 (VStr "Your request for this collection has been accepted")))
    as (k & resp & data & Hk & _ & Ho & H200 & Hp & _); [reflexivity | ].
  exists k, resp, data. repeat split; assumption.
Defined.

End UpstreamFacts.

(* ================================================================== *)
(** ** Results on start-up *)
(* ================================================================== *)

Module StartupFacts.

Import Startup.

(** The module loads, with the value of [BGG_TOKEN] as its token, exactly
    when the variable is set to a non-empty string; when it is not set
    and when it is empty, loading ends with the [ValueError]. *)
Theorem serving_iff_token_set (environ : string -> option string)
  (token : string) :
  (load_token environ = Serving token
   <-> environ "BGG_TOKEN" = Some token /\ token <> "")
  /\ ((exists message, load_token environ = Refused message)
      <-> environ "BGG_TOKEN" = None \/ environ "BGG_TOKEN" = Some "").
Proof.
  unfold load_token.
  destruct (environ "BGG_TOKEN") as [t | ]; cbn [truthy negb].
  - destruct (String.eqb_spec t "") as [-> | Ht]; cbn [negb].
    + split; split.
      * discriminate.
      * intros [H Hne]. injection H as <-. congruence.
      * intros _. right. reflexivity.
      * intros _. eexists. reflexivity.
    + split; split.
      * intros H. injection H as ->. split; [reflexivity | exact Ht].
      * intros [H _]. injection H as ->. reflexivity.
      * intros [message H]. discriminate H.
      * intros [H | H]; [discriminate H | congruence].
  - split; split.
    + discriminate.
    + intros [H _]. discriminate H.
    + intros _. left. reflexivity.
    + intros _. eexists. reflexivity.
Qed.

End StartupFacts.

(* ================================================================== *)
(** ** Further results on the normaliser *)
(* ================================================================== *)

Module ShapeFacts.

Import Normalizer Shapes.

(** *** Names *)

(** A name given as one mapping and a name given as the one-element
    sequence of that mapping are read alike, whatever the mapping holds. *)
Theorem name_of_single_candidate (d : dict) :
  extract_name (VList [VDict d]) = extract_name (VDict d).
Proof.
  unfold extract_name. cbn [first_sortindex_1 truthy andb].
  destruct (sortindex_is_1 d); [ | reflexivity].
  destruct (text_or_value d); reflexivity.
Qed.

Lemma find_is_head_of_filter {A : Type} (p : A -> bool) (l : list A) :
  find p l = hd_error (filter p l).
Proof.
  induction l as [| a l IH]; [reflexivity | ].
  cbn. destruct (p a); [reflexivity | exact IH].
Qed.

Lemma filter_permutation {A : Type} (p : A -> bool) (l l' : list A) :
  Permutation l l' -> Permutation (filter p l) (filter p l').
Proof.
  induction 1 as [| a l l' _ IH | a b l | l l' l'' _ IH1 _ IH2]; cbn.
  - constructor.
  - destruct (p a); [constructor | ]; exact IH.
  - destruct (p a), (p b); try apply Permutation_refl. constructor.
  - exact (Permutation_trans IH1 IH2).
Qed.

(** When exactly one candidate has sortindex 1 (and its text is not a
    present null), the name is read from it wherever it stands: the name
    does not depend on the order of the candidates. *)
Theorem name_independent_of_order (l l' : list value) (d : dict) :
  Permutation l l' ->
  filter has_sortindex_1 l = [VDict d] ->
  text_or_value d <> VNone ->
  extract_name (VList l) = text_or_value d
  /\ extract_name (VList l') = text_or_value d.
Proof.
  intros Hperm Hone Hn.
  assert (Hone' : filter has_sortindex_1 l' = [VDict d]).
  { apply Permutation_length_1_inv. rewrite <- Hone.
    apply filter_permutation, Hperm. }
  split; apply NormalizerFacts.extract_name_match; try exact Hn;
    rewrite find_is_head_of_filter; [rewrite Hone | rewrite Hone'];
    reflexivity.
Qed.

Lemma name_independent_of_order_witness :
  extract_name (VList Examples.names_B_then_A) = VStr "A"
  /\ extract_name (VList (rev Examples.names_B_then_A)) = VStr "A".
Proof.
  apply (name_independent_of_order Examples.names_B_then_A
           (rev Examples.names_B_then_A)
           [("@sortindex", VStr "1"); ("#text", VStr "A")]).
  - apply Permutation_rev.
  - reflexivity.
  - discriminate.
Defined.

Lemma textual_text_or_value d :
  textual (VDict d) = true -> exists s, text_or_value d = VStr s.
Proof.
  unfold textual, text_or_value, dict_get, absent_or_str.
  destruct (lookup "#text" d) as [[ | s | | | ] | ]; cbn;
    try discriminate; eauto.
  destruct (lookup "@value" d) as [[ | s | | | ] | ];
    try discriminate; eauto.
Qed.

(** When the text and the value of every candidate, where present, are
    strings, the name written in the answer is a string or null, for a
    name node of any shape. *)
Theorem name_is_string_or_null (name_data : value) :
  textual_name name_data = true ->
  str_or_None (extract_name name_data) = true.
Proof.
  destruct name_data as [ | s | z | d | l]; cbn [textual_name].
  - reflexivity.
  - intros _. cbn. destruct (String.eqb s ""); reflexivity.
  - intros _. cbn. destruct (z =? 0); reflexivity.
  - intros H. destruct (textual_text_or_value d H) as [s Hs].
    cbn [extract_name]. rewrite Hs. reflexivity.
  - intros H. unfold extract_name.
    rewrite NormalizerFacts.first_sortindex_1_find.
    destruct (find has_sortindex_1 l) as [n | ] eqn:Hf.
    + destruct (find_some _ _ Hf) as [Hin Hp].
      destruct n as [ | | | d | ]; try discriminate Hp.
      rewrite forallb_forall in H.
      destruct (textual_text_or_value d (H _ Hin)) as [s Hs].
      rewrite Hs. reflexivity.
    + destruct l as [| first rest]; [reflexivity | ].
      cbn [is_None truthy andb].
      destruct first as [ | | | d | ]; try reflexivity.
      cbn [forallb] in H. apply andb_true_iff in H as [H _].
      destruct (textual_text_or_value d H) as [s Hs].
      rewrite Hs. reflexivity.
Qed.

Lemma name_is_string_or_null_witness :
  str_or_None (extract_name (VList Examples.names_integer_sortindex)) = true.
Proof.
  apply name_is_string_or_null. reflexivity.
Defined.

(** *** Items *)

Lemma parse_games_bad_item items game :
  In game items ->
  isinstance_dict game = false ->
  parse_games items = Raise AttributeError.
Proof.
  induction items as [| first rest IH]; intros Hin Hbad; [destruct Hin | ].
  cbn [parse_games].
  destruct first as [ | | | g | ]; try reflexivity.
  destruct Hin as [<- | Hin]; [discriminate Hbad | ].
  rewrite NormalizerFacts.parse_game_dict. cbn [bind].
  rewrite (IH Hin Hbad). reflexivity.
Qed.

Lemma parse_games_not_all_dicts items :
  forallb isinstance_dict items = false ->
  parse_games items = Raise AttributeError.
Proof.
  intros H.
  destruct (forallb isinstance_dict items) eqn:Hall; [discriminate H | ].
  clear H. induction items as [| first rest IH]; [discriminate Hall | ].
  cbn [forallb] in Hall.
  destruct (isinstance_dict first) eqn:Hf.
  - destruct first as [ | | | g | ]; try discriminate Hf.
    cbn [parse_games]. rewrite NormalizerFacts.parse_game_dict. cbn [bind].
    rewrite (IH Hall). reflexivity.
  - apply (parse_games_bad_item (first :: rest) first); [left; reflexivity | ].
    exact Hf.
Qed.

Lemma parse_games_app l1 : forall l2,
  parse_games (l1 ++ l2)
  = (r1 <- parse_games l1 ;; r2 <- parse_games l2 ;; Return (r1 ++ r2)%list).
Proof.
  induction l1 as [| game rest IH]; intros l2; cbn [app parse_games bind].
  - destruct (parse_games l2); reflexivity.
  - destruct (parse_game game) as [g | e]; cbn [bind]; [ | reflexivity].
    rewrite IH. destruct (parse_games rest) as [r1 | e]; cbn [bind];
      [ | reflexivity].
    destruct (parse_games l2); reflexivity.
Qed.

(** Without a message, a tree whose item node is a sequence is
    normalised by the loop over that sequence. *)
Lemma normalise_item_sequence data l :
  lookup "message" data = None ->
  item_node data = Some (VList l) ->
  normalise data
  = (result <- parse_games l ;;
     Return (Ok (Z.of_nat (length result)) result)).
Proof.
  intros Hm Hi. rewrite (NormalizerFacts.normalise_no_message _ Hm).
  unfold item_node in Hi. unfold dict_get at 1.
  destruct (lookup "items" data) as [[ | | | items | ] | ];
    try discriminate Hi.
  cbn [get bind]. rewrite (NormalizerFacts.dict_get_present _ _ _ _ Hi).
  reflexivity.
Qed.

(** No partial answer: one item of the sequence that is no mapping, at
    any position, makes the whole request fail with [AttributeError],
    whatever the other items are. *)
Theorem one_bad_item_fails_the_request (data : dict) (l : list value)
  (game : value) :
  lookup "message" data = None ->
  item_node data = Some (VList l) ->
  In game l ->
  isinstance_dict game = false ->
  normalise data = Raise AttributeError.
Proof.
  intros Hm Hi Hin Hbad.
  rewrite (normalise_item_sequence _ _ Hm Hi).
  rewrite (parse_games_bad_item _ _ Hin Hbad). reflexivity.
Qed.

Lemma one_bad_item_witness :
  normalise
    (Examples.collection
       (VList [VDict (Examples.item_13 (VStr "Catan")); VNone;
               VDict (Examples.item_13 (VStr "Carcassonne"))]))
  = Raise AttributeError.
Proof.
  apply (one_bad_item_fails_the_request _
           [VDict (Examples.item_13 (VStr "Catan")); VNone;
            VDict (Examples.item_13 (VStr "Carcassonne"))] VNone);
    [reflexivity | reflexivity | right; left; reflexivity | reflexivity].
Defined.

(** The answer to a sequence of items is made item by item: when two
    sequences each normalise to an ok answer, their concatenation
    normalises to the ok answer whose items are the two item lists one
    after the other and whose count is the sum of the counts. *)
Theorem normalise_concatenation (data1 data2 data : dict)
  (l1 l2 : list value) (c1 c2 : Z) (r1 r2 : list ParsedGame) :
  item_node data1 = Some (VList l1) ->
  item_node data2 = Some (VList l2) ->
  item_node data = Some (VList (l1 ++ l2)) ->
  lookup "message" data = None ->
  normalise data1 = Return (Ok c1 r1) ->
  normalise data2 = Return (Ok c2 r2) ->
  normalise data = Return (Ok (c1 + c2) (r1 ++ r2)).
Proof.
  intros H1 H2 H Hm Hn1 Hn2.
  assert (Hm1 : lookup "message" data1 = None).
  { destruct (lookup "message" data1) eqn:E; [ | reflexivity].
    rewrite (NormalizerFacts.normalise_message _ _ E) in Hn1. discriminate. }
  assert (Hm2 : lookup "message" data2 = None).
  { destruct (lookup "message" data2) eqn:E; [ | reflexivity].
    rewrite (NormalizerFacts.normalise_message _ _ E) in Hn2. discriminate. }
  rewrite (normalise_item_sequence _ _ Hm1 H1) in Hn1.
  rewrite (normalise_item_sequence _ _ Hm2 H2) in Hn2.
  rewrite (normalise_item_sequence _ _ Hm H), parse_games_app.
  destruct (parse_games l1) as [g1 | e]; cbn [bind] in *; [ | discriminate].
  destruct (parse_games l2) as [g2 | e]; cbn [bind] in *; [ | discriminate].
  injection Hn1 as <- <-. injection Hn2 as <- <-.
  rewrite length_app, Nat2Z.inj_add. reflexivity.
Qed.

Lemma normalise_concatenation_witness :
  normalise
    (Examples.collection
       (VList ([VDict (Examples.item_13 (VStr "Catan"))]
               ++ [VDict (Examples.item_13 (VList Examples.names_B_only))])))
  = Return (Ok (1 + 1)
              ([{| objectid := VStr "13"; name := VStr "Catan" |}]
               ++ [{| objectid := VStr "13"; name := VStr "B" |}])).
Proof.
  apply (normalise_concatenation
           (Examples.collection
              (VList [VDict (Examples.item_13 (VStr "Catan"))]))
           (Examples.collection
              (VList [VDict (Examples.item_13 (VList Examples.names_B_only))]))
           _
           [VDict (Examples.item_13 (VStr "Catan"))]
           [VDict (Examples.item_13 (VList Examples.names_B_only))]);
    reflexivity.
Defined.

(** Exactly when it raises: the normaliser returns an answer if and only
    if the tree has a top-level message, or its [items] node is absent or
    a mapping whose [item] node is absent, a mapping, a sequence of
    mappings or the empty string.  On every other tree the request ends
    with [AttributeError] or [TypeError]. *)
Theorem normalise_returns_iff (data : dict) :
  ((exists r, normalise data = Return r)
   <-> lookup "message" data <> None \/ iterable_items data = true)
  /\ (normalise data = Raise AttributeError
      \/ normalise data = Raise TypeError
      \/ exists r, normalise data = Return r).
Proof.
  assert (Hcases : normalise data = Raise AttributeError
                   \/ normalise data = Raise TypeError
                   \/ exists r, normalise data = Return r).
  { destruct (normalise data) as [r | e] eqn:Hn; [eauto | ].
    destruct (NormalizerFacts.normalise_raises _ _ Hn) as [-> | ->]; auto. }
  split; [ | exact Hcases].
  destruct (lookup "message" data) as [message | ] eqn:Hm.
  { rewrite (NormalizerFacts.normalise_message _ _ Hm).
    split; [intros _; left; discriminate | eauto]. }
  rewrite (NormalizerFacts.normalise_no_message _ Hm).
  unfold iterable_items, dict_get.
  destruct (lookup "items" data) as [[ | s | z | items | l] | ];
    cbn [get bind];
    try (split; [intros [r H]; discriminate H
                | intros [H | H]; [congruence | discriminate H]]).
  - unfold dict_get.
    destruct (lookup "item" items) as [[ | s | z | g | l] | ];
      cbn [isinstance_dict iter bind];
      try (split; [intros [r H]; discriminate H
                  | intros [H | H]; [congruence | discriminate H]]).
    + destruct s as [| c s]; cbn.
      * split; [auto | eauto].
      * split; [intros [r H]; discriminate H
               | intros [H | H]; [congruence | discriminate H]].
    + cbn. split; [auto | eauto].
    + destruct (forallb isinstance_dict l) eqn:Hall.
      * destruct (NormalizerFacts.parse_games_dicts l Hall)
          as (result & -> & _).
        cbn. split; [auto | eauto].
      * rewrite (parse_games_not_all_dicts l Hall). cbn.
        split; [intros [r H]; discriminate H
               | intros [H | H]; [congruence | discriminate H]].
    + cbn. split; [auto | eauto].
  - cbn. split; [auto | eauto].
Qed.

End ShapeFacts.
